(** * wechat-monitor-poc: ingestion, deduplication and notification routing

    A shallow embedding of the stage-2 core of the monitor:
    - [KeywordFilter.check] of [monitor.py] and of [monitor_v2.py],
    - [BaseMessageSource] of [sources/base.py] (availability, poll status,
      [_deduplicate_messages]),
    - [NotificationSystem] of [notification_system.py] ([_match_rules],
      [_check_cooldown], [notify]),
    - [MultiSourceMonitor._process_message], [_poll_source] and the
      scheduling test of [run] in [monitor_v2.py].

    Python [str] values are [string]s, [dict]s and [set]s are stdpp's [gmap]
    and [gset], wall-clock instants are integers counting microseconds. *)

From Stdlib Require Import ZArith QArith Sorted.
From stdpp Require Import gmap strings pretty list fin_maps sets fin_sets.

Local Open Scope string_scope.
Local Open Scope list_scope.
Local Open Scope Z_scope.

Set Warnings "-clear-no-such-hyp,-abstract-large-number,-register-all".

(** ** Python string primitives *)

Module PyStr.

(** [startswith s p]: [p] is an initial segment of [s]. *)
Fixpoint startswith (s p : string) {struct p} : bool :=
  match p, s with
  | EmptyString, _ => true
  | String _ _, EmptyString => false
  | String a p', String b s' =>
      if Ascii.eqb a b then startswith s' p' else false
  end.

(** [contains sub s] is the Python expression [sub in s] on two strings:
    [sub] occurs in [s] as a contiguous block. *)
Fixpoint contains (sub s : string) : bool :=
  match s with
  | EmptyString => startswith s sub
  | String _ s' => startswith s sub || contains sub s'
  end.

(** [truthy s] is the truth value Python gives to a string in a
    condition: only the empty string is false. *)
Definition truthy (s : string) : bool :=
  match s with EmptyString => false | String _ _ => true end.

(** [replace_from k old new s] scans [s] from the left; [k] is the number
    of characters still to be dropped from the occurrence of [old] that was
    just replaced, so that occurrences never overlap. *)
Fixpoint replace_from (k : nat) (old new s : string) : string :=
  match s with
  | EmptyString => EmptyString
  | String a s' =>
      match k with
      | S k' => replace_from k' old new s'
      | O =>
          if startswith s old
          then new +:+ replace_from (String.length old - 1) old new s'
          else String a (replace_from O old new s')
      end
  end.

(** [replace old new s] is [s.replace(old, new)] for a non-empty [old]:
    every leftmost non-overlapping occurrence is replaced. *)
Definition replace (old new s : string) : string :=
  replace_from O old new s.

End PyStr.

(** ** Interpreter services

    [str.lower], [difflib.SequenceMatcher(None, a, b).ratio()] and the order
    in which a [set] is iterated belong to the Python runtime, not to the
    repository; the development is parametrised by them. The similarity
    ratio is a rational number [2 * M / T]. Python promises nothing about
    the iteration order of a set beyond listing every element once. *)

Class PyBuiltins := {
  str_lower : string -> string;
  SequenceMatcher_ratio : string -> string -> Q;
  set_to_list : gset string -> list string;
  set_to_list_perm : forall s : gset string, set_to_list s ≡ₚ elements s
}.

(** ** [KeywordFilter] of [monitor.py] *)

Module Monitor.

Record KeywordFilter : Set := mkKeywordFilter {
  keywords : list string;
  match_mode : string;
  case_sensitive : bool;
  fuzzy_threshold : Q
}.

(** [s if self.case_sensitive else s.lower()]. *)
Definition fold_case `{PyBuiltins} (self : KeywordFilter) (s : string) : string :=
  if case_sensitive self then s else str_lower s.

Definition _fuzzy_match `{PyBuiltins} (self : KeywordFilter)
    (text keyword : string) : Q :=
  SequenceMatcher_ratio (fold_case self text) (fold_case self keyword).

Definition LF : string := String (Ascii.ascii_of_nat 10) EmptyString.

(** The literal [ocr_error_map], in the iteration order of the dict (the
    repeated key keeps its first position). *)
Definition ocr_error_map : list (string * string) :=
  [ ("欵", "款"); ("吿", "告"); ("訴", "诉"); ("単", "单"); ("扴", "打");
    ("収", "收"); ("発", "发"); ("貨", "货"); ("価", "价"); ("扱", "投") ].

Definition strip_blanks (s : string) : string :=
  PyStr.replace LF "" (PyStr.replace " " "" s).

Definition _ocr_error_match `{PyBuiltins} (self : KeywordFilter)
    (text keyword : string) : bool :=
  let text := fold_case self text in
  let keyword := fold_case self keyword in
  let text_no_space := strip_blanks text in
  let keyword_no_space := strip_blanks keyword in
  if PyStr.contains keyword_no_space text_no_space then true
  else
    let corrected_text :=
      fold_left (fun acc ec => PyStr.replace (fst ec) (snd ec) acc)
        ocr_error_map text_no_space in
    if PyStr.contains keyword_no_space corrected_text then true else false.

(** The body of the [for keyword in self.keywords] loop: does this keyword
    make [check] return? An unknown [match_mode] takes none of the three
    branches. *)
Definition keyword_matches `{PyBuiltins} (self : KeywordFilter)
    (text check_text keyword : string) : bool :=
  let check_keyword := fold_case self keyword in
  if String.eqb (match_mode self) "contain" then
    if PyStr.contains check_keyword check_text then true
    else if _ocr_error_match self text keyword then true
    else false
  else if String.eqb (match_mode self) "exact" then
    if String.eqb check_keyword check_text then true else false
  else if String.eqb (match_mode self) "fuzzy" then
    if Qle_bool (fuzzy_threshold self) (_fuzzy_match self text keyword) then true
    else if PyStr.contains check_keyword check_text then true
    else false
  else false.

Fixpoint check_loop `{PyBuiltins} (self : KeywordFilter)
    (text check_text : string) (kws : list string) : option string :=
  match kws with
  | [] => None
  | keyword :: rest =>
      if keyword_matches self text check_text keyword then Some keyword
      else check_loop self text check_text rest
  end.

(** [check]: [text] is [None] when the caller passes Python's [None]. *)
Definition check `{PyBuiltins} (self : KeywordFilter)
    (text : option string) : option string :=
  match text with
  | None => None
  | Some t =>
      if negb (PyStr.truthy t) then None
      else check_loop self t (fold_case self t) (keywords self)
  end.

End Monitor.

(** ** [core/message.py] *)

Module Message.

Record ChatMessage : Set := mkChatMessage {
  id : string;
  platform : string;
  channel : string;
  content : string;
  timestamp : Z;
  sender : string;
  source_name : string;
  processed : bool;
  matched_keywords : list string
}.

End Message.

(** ** [sources/base.py] *)

Module Base.
Import Message.

Record BaseMessageSource : Type := mkSource {
  name : string;
  platform : string;
  enabled : bool;
  poll_interval : Z;
  _last_poll_time : option Z;
  _last_error : option string;
  _message_count : Z;
  _error_count : Z;
  _seen_message_ids : gset string
}.

(** One second and five minutes in clock units (microseconds). *)
Definition second : Z := 1000000.
Definition five_minutes : Z := 5 * 60 * second.

(** Truth value of an [Optional[str]] in a condition. *)
Definition truthy_opt (o : option string) : bool :=
  match o with None => false | Some s => PyStr.truthy s end.

(** [is_available]; [now] is the reading of [datetime.now()]. *)
Definition is_available (self : BaseMessageSource) (now : Z) : bool :=
  if negb (enabled self) then false
  else
    match _last_poll_time self with
    | Some last =>
        if truthy_opt (_last_error self) then
          if now - last <? five_minutes then false else true
        else true
    | None => true
    end.

(** [error_msg or "Unknown error"]. *)
Definition error_or_unknown (error_msg : option string) : string :=
  match error_msg with
  | Some m => if PyStr.truthy m then m else "Unknown error"
  | None => "Unknown error"
  end.

Definition _update_poll_status (self : BaseMessageSource) (now : Z)
    (success : bool) (error_msg : option string) : BaseMessageSource :=
  if success then
    mkSource (name self) (platform self) (enabled self) (poll_interval self)
      (Some now) None (_message_count self) (_error_count self)
      (_seen_message_ids self)
  else
    mkSource (name self) (platform self) (enabled self) (poll_interval self)
      (Some now) (Some (error_or_unknown error_msg)) (_message_count self)
      (_error_count self + 1) (_seen_message_ids self).

(** [l[-n:]] on a list. *)
Definition last_n {A : Type} (n : Z) (l : list A) : list A :=
  drop (Z.to_nat (Z.of_nat (length l) - n)) l.

(** [set(list(seen)[-8000:])]. *)
Definition trim `{PyBuiltins} (seen : gset string) : gset string :=
  list_to_set (last_n 8000 (set_to_list seen)).

(** What the body of the loop does to the set once [msg.id] is known to be
    new: the [add], then the size test and the trim. *)
Definition remember `{PyBuiltins} (seen : gset string) (i : string)
    : gset string :=
  let seen := {[ i ]} ∪ seen in
  if 10000 <? Z.of_nat (size seen) then trim seen else seen.

(** [_deduplicate_messages]: returns the updated [_seen_message_ids] and
    [new_messages]. *)
Fixpoint _deduplicate_messages `{PyBuiltins} (seen : gset string)
    (messages : list ChatMessage) : gset string * list ChatMessage :=
  match messages with
  | [] => (seen, [])
  | msg :: rest =>
      if decide (id msg ∈ seen) then _deduplicate_messages seen rest
      else
        let '(seen', new_messages) :=
          _deduplicate_messages (remember seen (id msg)) rest in
        (seen', msg :: new_messages)
  end.

Definition with_seen (self : BaseMessageSource) (seen : gset string)
    (count : Z) : BaseMessageSource :=
  mkSource (name self) (platform self) (enabled self) (poll_interval self)
    (_last_poll_time self) (_last_error self) count (_error_count self) seen.

End Base.

(** ** [notification_system.py] *)

Module Notification.

Inductive NotificationPriority : Set :=
| CRITICAL | HIGH | NORMAL | LOW | IGNORE.

Record NotificationMessage : Set := mkNotificationMessage {
  title : string;
  content : string;
  priority : NotificationPriority;
  keyword : string;
  source : string;
  timestamp : Z
}.

Record NotificationRule : Set := mkNotificationRule {
  name : string;
  keywords : list string;
  channels : list string;
  rule_priority : NotificationPriority;
  cooldown : Z;
  enabled : bool
}.

(** The test of line 464: [any(kw in message.keyword for kw in rule.keywords)]. *)
Definition rule_keyword_hit (message : NotificationMessage)
    (rule : NotificationRule) : bool :=
  existsb (fun kw => PyStr.contains kw (keyword message)) (keywords rule).

(** [_match_rules]: the loop over [self.rules], skipping disabled rules and
    appending the rules whose keyword test succeeds. *)
Fixpoint _match_rules (rules : list NotificationRule)
    (message : NotificationMessage) : list NotificationRule :=
  match rules with
  | [] => []
  | rule :: rest =>
      if negb (enabled rule) then _match_rules rest message
      else if rule_keyword_hit message rule
           then rule :: _match_rules rest message
           else _match_rules rest message
  end.

(** What awaiting [channel.send(message)] under [asyncio.wait_for] gives:
    a boolean, a timeout, or another exception. *)
Inductive SendOutcome : Set :=
| Returned (ok : bool)
| TimedOut
| Raised.

Record NotificationChannel : Type := mkChannel {
  channel_enabled : bool;
  send : NotificationMessage -> SendOutcome
}.

Definition is_available (self : NotificationChannel) : bool :=
  channel_enabled self.

Record NotificationSystem : Type := mkSystem {
  system_enabled : bool;
  system_channels : gmap string NotificationChannel;
  rules : list NotificationRule;
  default_channels : option (list string);
  _cooldown_records : gmap string Z
}.

(** [_check_cooldown]: the answer and the ledger afterwards. [cooldown] is
    in seconds, instants are in microseconds, so
    [(now - last_time).total_seconds() < cooldown] reads
    [now - last_time < cooldown * 1000000]. *)
Definition _check_cooldown (records : gmap string Z) (now : Z)
    (key : string) (cooldown : Z) : bool * gmap string Z :=
  if cooldown <=? 0 then (true, records)
  else
    match records !! key with
    | Some last_time =>
        if now - last_time <? cooldown * 1000000 then (false, records)
        else (true, <[ key := now ]> records)
    | None => (true, <[ key := now ]> records)
    end.

(** [config.get("notification", {}).get("default_channels", ["console", "file"])]. *)
Definition configured_default_channels (self : NotificationSystem) : list string :=
  match default_channels self with
  | Some l => l
  | None => ["console"; "file"]
  end.

(** [min(rule.cooldown for rule in matched_rules)] on a non-empty list. *)
Definition min_cooldown (first : NotificationRule)
    (others : list NotificationRule) : Z :=
  foldl (fun m rule => Z.min m (cooldown rule)) (cooldown first) others.

(** The set built by the [update] loop of lines 495-498. *)
Definition merged_channels (matched_rules : list NotificationRule) : gset string :=
  foldl (fun acc rule => acc ∪ list_to_set (channels rule)) ∅ matched_rules.

(** Lines 484-499 of [notify]: [channels_to_notify] and [cooldown]. *)
Definition resolve `{PyBuiltins} (self : NotificationSystem)
    (message : NotificationMessage) : list string * Z :=
  match _match_rules (rules self) message with
  | [] => (configured_default_channels self, 0)
  | first :: others =>
      (set_to_list (merged_channels (first :: others)),
       min_cooldown first others)
  end.

(** [f"{message.keyword}:{message.source}"]. *)
Definition cooldown_key (message : NotificationMessage) : string :=
  keyword message +:+ ":" +:+ source message.

(** The first loop of the dispatch (lines 511-517): the tasks created, in
    order, and the [False] entries written for missing or unavailable
    channels. *)
Fixpoint schedule (chans : gmap string NotificationChannel)
    (names : list string) (results : gmap string bool)
    : list (string * NotificationChannel) * gmap string bool :=
  match names with
  | [] => ([], results)
  | channel_name :: rest =>
      match chans !! channel_name with
      | Some channel =>
          if is_available channel then
            let '(tasks, results') := schedule chans rest results in
            ((channel_name, channel) :: tasks, results')
          else schedule chans rest (<[ channel_name := false ]> results)
      | None => schedule chans rest (<[ channel_name := false ]> results)
      end
  end.

(** [_send_with_timeout]: a timeout is turned into [False]; [None] stands
    for an exception that leaves the coroutine. *)
Definition _send_with_timeout (channel : NotificationChannel)
    (message : NotificationMessage) : option bool :=
  match send channel message with
  | Returned ok => Some ok
  | TimedOut => Some false
  | Raised => None
  end.

(** The second loop (lines 520-527): each task is awaited, an exception is
    recorded as [False]. *)
Definition run_tasks (message : NotificationMessage)
    (tasks : list (string * NotificationChannel))
    (results : gmap string bool) : gmap string bool :=
  foldl (fun res task =>
           match _send_with_timeout (snd task) message with
           | Some ok => <[ fst task := ok ]> res
           | None => <[ fst task := false ]> res
           end) results tasks.

(** What a call of [notify] produces: the returned map, the channels whose
    [send] was started (in order), and the cooldown ledger afterwards. *)
Record Notified : Type := mkNotified {
  results : gmap string bool;
  sends : list string;
  records_after : gmap string Z
}.

(** [notify]; [now] is the clock reading taken by [_check_cooldown]. *)
Definition notify `{PyBuiltins} (self : NotificationSystem) (now : Z)
    (message : NotificationMessage) : Notified :=
  if negb (system_enabled self) then
    mkNotified ∅ [] (_cooldown_records self)
  else
    let '(channels_to_notify, cooldown) := resolve self message in
    let '(allowed, records) :=
      _check_cooldown (_cooldown_records self) now (cooldown_key message)
        cooldown in
    if negb allowed then mkNotified ∅ [] records
    else
      let '(tasks, results) :=
        schedule (system_channels self) channels_to_notify ∅ in
      mkNotified (run_tasks message tasks results) (map fst tasks) records.

(** The system after the call: only the ledger changes. *)
Definition after `{PyBuiltins} (self : NotificationSystem) (now : Z)
    (message : NotificationMessage) : NotificationSystem :=
  mkSystem (system_enabled self) (system_channels self) (rules self)
    (default_channels self) (records_after (notify self now message)).

End Notification.

(** ** [sources/wechat_screen.py], [sources/window_screen.py] *)

Module Screen.
Import Message Base.

(** What the capture, OCR and parsing steps of one [poll] deliver; these
    steps are outside the core. *)
Inductive Capture : Set :=
| NoScreenshot
| SameScreenshot
| BlankText
| Parsed (messages : list ChatMessage)
| Failed (error : string).

(** [poll]: every path ends in [_update_poll_status]; an exception inside
    the [try] block is caught and recorded. *)
Definition poll `{PyBuiltins} (self : BaseMessageSource) (now : Z)
    (capture : Capture) : BaseMessageSource * list ChatMessage :=
  match capture with
  | NoScreenshot =>
      (_update_poll_status self now false (Some "截图失败"), [])
  | SameScreenshot => (_update_poll_status self now true None, [])
  | BlankText => (_update_poll_status self now true None, [])
  | Parsed messages =>
      let '(seen, new_messages) :=
        _deduplicate_messages (_seen_message_ids self) messages in
      let self :=
        with_seen self seen
          (_message_count self + Z.of_nat (length new_messages)) in
      (_update_poll_status self now true None, new_messages)
  | Failed error => (_update_poll_status self now false (Some error), [])
  end.

End Screen.

(** ** [monitor_v2.py] *)

Module MonitorV2.

Record KeywordFilter : Set := mkKeywordFilter {
  keywords : list string;
  case_sensitive : bool
}.

(** [__init__]: the keywords are lower-cased once when the filter is not
    case sensitive. *)
Definition init `{PyBuiltins} (keywords : list string) (case_sensitive : bool)
    : KeywordFilter :=
  if negb case_sensitive
  then mkKeywordFilter (map str_lower keywords) case_sensitive
  else mkKeywordFilter keywords case_sensitive.

Fixpoint check_loop (check_text : string) (kws : list string) : option string :=
  match kws with
  | [] => None
  | keyword :: rest =>
      if PyStr.contains keyword check_text then Some keyword
      else check_loop check_text rest
  end.

Definition check `{PyBuiltins} (self : KeywordFilter)
    (text : option string) : option string :=
  match text with
  | None => None
  | Some t =>
      if negb (PyStr.truthy t) then None
      else
        let check_text := if case_sensitive self then t else str_lower t in
        check_loop check_text (keywords self)
  end.

(** [database.MessageRecord]. *)
Record MessageRecord : Set := mkMessageRecord {
  record_id : option Z;
  window_title : string;
  window_handle : Z;
  message_text : string;
  matched_keyword : string;
  screenshot_path : option string;
  created_at : Z
}.

Inductive Event : Set :=
| Stored (record : MessageRecord) (row : Z)
| StoreFailed (record : MessageRecord)
| Broadcast (record : MessageRecord)
| NotificationTriggered (message : Notification.NotificationMessage)
| SourceSkipped (source : string)
| PollRaisedLogged (source : string).

(** The methods a source class provides to the monitor. [PollRaised] is a
    [poll()] whose exception reaches the caller. *)
Inductive PollOutcome : Type :=
| Polled (source : Base.BaseMessageSource) (messages : list Message.ChatMessage)
| PollRaised.

Record SourceClass : Type := mkSourceClass {
  source_is_available : Base.BaseMessageSource -> Z -> bool;
  source_poll : Base.BaseMessageSource -> Z -> PollOutcome
}.

(** The screen sources: [is_available] is the base test followed by the
    window lookup, [poll] is [Screen.poll]. *)
Definition screen_source `{PyBuiltins} (window_found : bool)
    (capture : Screen.Capture) : SourceClass :=
  mkSourceClass
    (fun self now => if negb (Base.is_available self now) then false
                     else window_found)
    (fun self now =>
       let '(self', messages) := Screen.poll self now capture in
       Polled self' messages).

Section MultiSourceMonitor.

(** The persistence layer: a store of some type [DB] and
    [insert_message], which gives the row id or raises ([None]). *)
Context {DB : Type}.
Variable insert_message : DB -> MessageRecord -> DB * option Z.

Record MultiSourceMonitor : Type := mkMonitor {
  db : DB;
  keyword_filter : option KeywordFilter;
  notification_system : bool;
  total_messages : Z;
  matched_messages : Z;
  _source_last_poll : gmap string Z
}.

(** [matched_keyword or "(未匹配)"]. *)
Definition keyword_or_unmatched (matched_keyword : option string) : string :=
  match matched_keyword with
  | Some k => if PyStr.truthy k then k else "(未匹配)"
  | None => "(未匹配)"
  end.

Definition to_record (msg : Message.ChatMessage)
    (matched_keyword : option string) : MessageRecord :=
  mkMessageRecord None (Message.channel msg) 0 (Message.content msg)
    (keyword_or_unmatched matched_keyword) None (Message.timestamp msg).

(** [_send_notification]: nothing without a notification system, otherwise
    the message handed to the background thread. *)
Definition _send_notification (self : MultiSourceMonitor) (now : Z)
    (record : MessageRecord) : list Event :=
  if negb (notification_system self) then []
  else
    [NotificationTriggered
       (Notification.mkNotificationMessage
          ("关键字匹配: " +:+ matched_keyword record) (message_text record)
          Notification.NORMAL (matched_keyword record) (window_title record)
          now)].

(** [_process_message]: the monitor and the message afterwards, what was
    emitted, and the returned flag. *)
Definition _process_message `{PyBuiltins} (self : MultiSourceMonitor)
    (now : Z) (msg : Message.ChatMessage)
    : MultiSourceMonitor * Message.ChatMessage * list Event * bool :=
  let matched_keyword :=
    match keyword_filter self with
    | Some kf => check kf (Some (Message.content msg))
    | None => None
    end in
  let hit := Base.truthy_opt matched_keyword in
  let msg :=
    if hit then
      Message.mkChatMessage (Message.id msg) (Message.platform msg)
        (Message.channel msg) (Message.content msg) (Message.timestamp msg)
        (Message.sender msg) (Message.source_name msg) (Message.processed msg)
        (Message.matched_keywords msg
           ++ match matched_keyword with Some k => [k] | None => [] end)%list
    else msg in
  let matched := if hit then matched_messages self + 1 else matched_messages self in
  let record := to_record msg matched_keyword in
  match insert_message (db self) record with
  | (db', None) =>
      (mkMonitor db' (keyword_filter self) (notification_system self)
         (total_messages self) matched (_source_last_poll self),
       msg, [StoreFailed record], false)
  | (db', Some row) =>
      let self' :=
        mkMonitor db' (keyword_filter self) (notification_system self)
          (total_messages self + 1) matched (_source_last_poll self) in
      let msg' :=
        Message.mkChatMessage (Message.id msg) (Message.platform msg)
          (Message.channel msg) (Message.content msg) (Message.timestamp msg)
          (Message.sender msg) (Message.source_name msg) true
          (Message.matched_keywords msg) in
      (self', msg',
       ([Stored record row; Broadcast record]
          ++ (if hit then _send_notification self' now record else []))%list,
       true)
  end.

(** The [for msg in messages] loop of [_poll_source]. *)
Fixpoint process_batch `{PyBuiltins} (self : MultiSourceMonitor) (now : Z)
    (messages : list Message.ChatMessage) : MultiSourceMonitor * list Event :=
  match messages with
  | [] => (self, [])
  | msg :: rest =>
      let '(self', _, events, _) := _process_message self now msg in
      let '(self'', events') := process_batch self' now rest in
      (self'', (events ++ events')%list)
  end.

(** [_poll_source]. *)
Definition _poll_source `{PyBuiltins} (self : MultiSourceMonitor)
    (cls : SourceClass) (source : Base.BaseMessageSource) (now : Z)
    : MultiSourceMonitor * Base.BaseMessageSource * list Event :=
  if negb (source_is_available cls source now) then
    (self, source, [SourceSkipped (Base.name source)])
  else
    match source_poll cls source now with
    | Polled source' messages =>
        let '(self', events) := process_batch self now messages in
        (self', source', events)
    | PollRaised => (self, source, [PollRaisedLogged (Base.name source)])
    end.

(** One pass of the body of the [for source in self.sources] loop of [run]:
    the due test, the poll and the update of [_source_last_poll]. *)
Definition visit `{PyBuiltins} (self : MultiSourceMonitor)
    (cls : SourceClass) (source : Base.BaseMessageSource) (current_time : Z)
    : MultiSourceMonitor * Base.BaseMessageSource * list Event :=
  let last_poll := default 0 (_source_last_poll self !! Base.name source) in
  if Base.poll_interval source * Base.second <=? current_time - last_poll then
    let '(self', source', events) :=
      _poll_source self cls source current_time in
    (mkMonitor (db self') (keyword_filter self') (notification_system self')
       (total_messages self') (matched_messages self')
       (<[ Base.name source := current_time ]> (_source_last_poll self')),
     source', events)
  else (self, source, []).

End MultiSourceMonitor.

End MonitorV2.

(** ** More string operations *)

Module PyText.

(** A byte that continues a UTF-8 sequence. The number of characters of a
    Python [str] is the number of bytes of its UTF-8 form that are not
    continuation bytes. *)
Definition is_continuation (c : Ascii.ascii) : bool :=
  let n := Ascii.nat_of_ascii c in (128 <=? n)%nat && (n <? 192)%nat.

(** [len(s)]. *)
Fixpoint len_chars (s : string) : nat :=
  match s with
  | EmptyString => O
  | String c s' => if is_continuation c then len_chars s' else S (len_chars s')
  end.

(** [s[:n]]: the first [n] characters. *)
Fixpoint take_chars (n : nat) (s : string) : string :=
  match s with
  | EmptyString => EmptyString
  | String c s' =>
      if is_continuation c then String c (take_chars n s')
      else match n with
           | O => EmptyString
           | S n' => String c (take_chars n' s')
           end
  end.

(** [s.split(sep)] for a one-character separator. *)
Fixpoint split_on (sep : Ascii.ascii) (s : string) : list string :=
  match s with
  | EmptyString => [EmptyString]
  | String c s' =>
      if Ascii.eqb c sep then EmptyString :: split_on sep s'
      else match split_on sep s' with
           | [] => [String c EmptyString]
           | first :: rest => String c first :: rest
           end
  end.

(** [sep.join(l)]. *)
Fixpoint join (sep : string) (l : list string) : string :=
  match l with
  | [] => EmptyString
  | [x] => x
  | x :: rest => x +:+ sep +:+ join sep rest
  end.

(** [s.endswith(suffix)]. *)
Definition endswith (s suffix : string) : bool :=
  PyStr.startswith
    (String.string_of_list_ascii (rev (String.list_ascii_of_string s)))
    (String.string_of_list_ascii (rev (String.list_ascii_of_string suffix))).

End PyText.

(** ** [notification.py] *)

Module Legacy.

(** What a call of [notifier.notify(title, content)] does: return, or
    raise. *)
Inductive NotifierOutcome : Set :=
| Delivered
| NotifierRaised.

Record NotificationManager : Type := mkManager {
  notifiers : list (string -> string -> NotifierOutcome);
  dedup_interval : Z;
  _recent_notifications : gmap string Z
}.

Definition add_notifier (self : NotificationManager)
    (notifier : string -> string -> NotifierOutcome) : NotificationManager :=
  mkManager (notifiers self ++ [notifier]) (dedup_interval self)
    (_recent_notifications self).

(** [_should_notify]: the answer and [_recent_notifications] afterwards. *)
Definition _should_notify (self : NotificationManager) (now : Z)
    (key : string) : bool * gmap string Z :=
  match _recent_notifications self !! key with
  | Some last_time =>
      if now - last_time <? dedup_interval self * 1000000
      then (false, _recent_notifications self)
      else (true, <[ key := now ]> (_recent_notifications self))
  | None => (true, <[ key := now ]> (_recent_notifications self))
  end.

(** The key used when [dedup_key] is [None]:
    [f"{title}:{content[:50]}"]. *)
Definition default_key (title content : string) : string :=
  title +:+ ":" +:+ PyText.take_chars 50 content.

(** [notify]: the manager afterwards and, when the notification is not
    skipped, what each notifier did, in order. *)
Definition notify (self : NotificationManager) (now : Z)
    (title content : string) (dedup_key : option string)
    : NotificationManager * option (list NotifierOutcome) :=
  let dedup_key :=
    match dedup_key with
    | Some k => k
    | None => default_key title content
    end in
  let '(ok, recent) := _should_notify self now dedup_key in
  let self' := mkManager (notifiers self) (dedup_interval self) recent in
  if negb ok then (self', None)
  else (self', Some (map (fun notifier => notifier title content)
                       (notifiers self))).

End Legacy.

(** ** [sources/wechat_api.py] *)

Module WeChatApi.

(** A value of the pushed JSON as the parser sees it: a string, an integer,
    null, a boolean, or a float, the latter given by what [str()] and
    [int()] make of it ([int()] raises for an infinity and for a NaN).
    Lists and objects as values of these keys are left out. *)
Inductive PyVal : Set :=
| VStr (s : string)
| VInt (z : Z)
| VNone
| VBool (b : bool)
| VFloat (text : string) (whole : option Z).

(** The conversions of line 141, which raise on some inputs ([None]):
    [int(s)] of a string, and [datetime.fromtimestamp(n)], whose range
    depends on the platform. *)
Class PyConversions := {
  int_of_str : string -> option Z;
  fromtimestamp : Z -> option Z
}.

(** [str(v)], which is also how an f-string renders [v]. *)
Definition py_str (v : PyVal) : string :=
  match v with
  | VStr s => s
  | VInt z => pretty z
  | VNone => "None"
  | VBool true => "True"
  | VBool false => "False"
  | VFloat text _ => text
  end.

(** [int(v)]; [None] stands for the [TypeError], [ValueError] or
    [OverflowError]. *)
Definition py_int `{PyConversions} (v : PyVal) : option Z :=
  match v with
  | VStr s => int_of_str s
  | VInt z => Some z
  | VNone => None
  | VBool b => Some (if b then 1 else 0)
  | VFloat _ whole => whole
  end.

(** A pushed object: the keys that [_parse_wechat_message] reads, each
    absent or present. [Content] is text, as the field [content: str] of
    [ChatMessage] declares. *)
Record RawMessage : Set := mkRaw {
  MsgType : option PyVal;
  MsgId : option PyVal;
  FromUserName : option PyVal;
  ToUserName : option PyVal;
  Content : option string;
  CreateTime : option PyVal
}.

(** What [request.get_json() or {}] hands over: an object, or a JSON value
    of another kind (a list, a string, a number). *)
Inductive Payload : Set :=
| Object (fields : RawMessage)
| NotObject.

Record WeChatApiSource : Type := mkApiSource {
  base : Base.BaseMessageSource;
  app_id : string;
  app_secret : string;
  _processed_message_ids : gset string
}.

(** The part of [__init__] that touches the class-level
    [_message_queues]. *)
Definition register (queues : gmap string (list Payload)) (name : string)
    : gmap string (list Payload) :=
  match queues !! name with
  | Some _ => queues
  | None => <[ name := [] ]> queues
  end.

(** [add_webhook_message]: the queues afterwards, and whether the call
    returned. After the append, the debug line evaluates
    [message.get('MsgId')], which raises when the payload is not an
    object. *)
Definition add_webhook_message (queues : gmap string (list Payload))
    (source_name : string) (message : Payload)
    : gmap string (list Payload) * bool :=
  match queues !! source_name with
  | Some queue =>
      (<[ source_name := queue ++ [message] ]> queues,
       match message with Object _ => true | NotObject => false end)
  | None => (queues, true)
  end.

(** How a call of [_parse_wechat_message] ends. *)
Inductive Parse : Type :=
| ReturnedMessage (msg : Message.ChatMessage)
| ReturnedNone
| ParseRaised.

(** [msg_type != "text"]. *)
Definition not_text (msg_type : PyVal) : bool :=
  match msg_type with
  | VStr s => negb (String.eqb s "text")
  | _ => true
  end.

(** [_parse_wechat_message]; [now] is the clock reading used when
    [CreateTime] is absent. It raises when the payload has no [get], when
    [int(create_time)] or [datetime.fromtimestamp] raises, and when
    [len(from_user)] raises because [FromUserName] is not a string. *)
Definition _parse_wechat_message `{PyConversions} (self : WeChatApiSource)
    (now : Z) (raw_msg : Payload) : Parse :=
  match raw_msg with
  | NotObject => ParseRaised
  | Object raw_msg =>
      let msg_type := default (VStr "") (MsgType raw_msg) in
      if not_text msg_type then ReturnedNone
      else
        let msg_id :=
          match MsgId raw_msg with Some v => py_str v | None => "" end in
        let from_user := default (VStr "") (FromUserName raw_msg) in
        let content := default "" (Content raw_msg) in
        let create_time :=
          default (VInt (now ÷ 1000000)) (CreateTime raw_msg) in
        let msg_id :=
          if PyStr.truthy msg_id then msg_id
          else py_str from_user +:+ "_" +:+ py_str create_time in
        match py_int create_time ≫= fromtimestamp with
        | None => ParseRaised
        | Some timestamp =>
            match from_user with
            | VStr from_user =>
                ReturnedMessage
                  (Message.mkChatMessage msg_id "wechat_kf"
                     (if (16 <? PyText.len_chars from_user)%nat
                      then PyText.take_chars 16 from_user +:+ "..."
                      else from_user)
                     content timestamp from_user
                     (Base.name (base self)) false [])
            | _ => ParseRaised
            end
        end
  end.

(** The loop of [poll] over the drained queue: the set of processed ids
    afterwards and the messages kept. A message on which the parser
    raises is logged and left out. *)
Fixpoint collect `{PyConversions} (self : WeChatApiSource) (now : Z)
    (processed : gset string) (raw_messages : list Payload)
    : gset string * list Message.ChatMessage :=
  match raw_messages with
  | [] => (processed, [])
  | raw_msg :: rest =>
      match _parse_wechat_message self now raw_msg with
      | ReturnedMessage msg =>
          if decide (Message.id msg ∈ processed) then
            collect self now processed rest
          else
            let '(processed', messages) :=
              collect self now ({[ Message.id msg ]} ∪ processed) rest in
            (processed', msg :: messages)
      | ReturnedNone => collect self now processed rest
      | ParseRaised => collect self now processed rest
      end
  end.

(** [poll]: the queues and the source afterwards, and the messages
    returned. *)
Definition poll `{PyConversions} (queues : gmap string (list Payload))
    (self : WeChatApiSource) (now : Z)
    : gmap string (list Payload) * WeChatApiSource
      * list Message.ChatMessage :=
  let name := Base.name (base self) in
  let raw_messages := default [] (queues !! name) in
  let queues' :=
    match queues !! name with
    | Some _ => <[ name := [] ]> queues
    | None => queues
    end in
  let '(processed, messages) :=
    collect self now (_processed_message_ids self) raw_messages in
  let counted :=
    match messages with
    | [] => base self
    | _ =>
        Base.with_seen (base self) (Base._seen_message_ids (base self))
          (Base._message_count (base self) + Z.of_nat (length messages))
    end in
  (queues',
   mkApiSource (Base._update_poll_status counted now true None)
     (app_id self) (app_secret self) processed,
   messages).

(** [is_available]. *)
Definition is_available (self : WeChatApiSource) (now : Z) : bool :=
  if negb (Base.is_available (base self) now) then false
  else if negb (PyStr.truthy (app_id self))
          || negb (PyStr.truthy (app_secret self)) then false
  else true.

End WeChatApi.

(** ** Loading the configuration ([notification_system.py],
    [monitor_v2.py]) *)

Module Loading.

(** One entry of [notification.rules]: each key absent or present. *)
Record RuleConfig : Set := mkRuleConfig {
  rc_name : option string;
  rc_keywords : option (list string);
  rc_channels : option (list string);
  rc_priority : option string;
  rc_cooldown : option Z;
  rc_enabled : option bool
}.

(** [NotificationPriority[name]]: [None] stands for the [KeyError]. *)
Definition priority_named (name : string) : option Notification.NotificationPriority :=
  if String.eqb name "CRITICAL" then Some Notification.CRITICAL
  else if String.eqb name "HIGH" then Some Notification.HIGH
  else if String.eqb name "NORMAL" then Some Notification.NORMAL
  else if String.eqb name "LOW" then Some Notification.LOW
  else if String.eqb name "IGNORE" then Some Notification.IGNORE
  else None.

(** [_init_rules]: a rule whose construction raises is logged and left
    out. *)
Fixpoint _init_rules (rules_config : list RuleConfig)
    : list Notification.NotificationRule :=
  match rules_config with
  | [] => []
  | rule_config :: rest =>
      match priority_named (default "NORMAL" (rc_priority rule_config)) with
      | Some priority =>
          Notification.mkNotificationRule
            (default "未命名规则" (rc_name rule_config))
            (default [] (rc_keywords rule_config))
            (default [] (rc_channels rule_config))
            priority
            (default 300 (rc_cooldown rule_config))
            (default true (rc_enabled rule_config))
          :: _init_rules rest
      | None => _init_rules rest
      end
  end.

(** One entry of [notification.channels]. *)
Record ChannelConfig : Set := mkChannelConfig {
  cc_enabled : option bool;
  cc_webhook_url : option string;
  cc_smtp_server : option string;
  cc_username : option string;
  cc_password : option string
}.

(** What lies outside the process: whether [win10toast] can be imported,
    whether the log file of the file channel can be opened, and what the
    delivery of a message over a channel gives ([None]: no answer within
    the timeout). Every [send] catches its own exceptions and returns
    [False]. *)
Record Outside : Type := mkOutside {
  toast_installed : bool;
  log_file_opens : bool;
  transport : string -> Notification.NotificationMessage -> option bool
}.

Definition outcome (answer : option bool) : Notification.SendOutcome :=
  match answer with
  | Some ok => Notification.Returned ok
  | None => Notification.TimedOut
  end.

(** A channel whose [send] starts with [if not self.is_available(): return
    False]. *)
Definition guarded (outside : Outside) (name : string) (enabled : bool)
    : Notification.NotificationChannel :=
  Notification.mkChannel enabled
    (fun m => if enabled then outcome (transport outside name m)
              else Notification.Returned false).

(** A channel whose [send] does not look at [enabled]. *)
Definition unguarded (outside : Outside) (name : string) (enabled : bool)
    : Notification.NotificationChannel :=
  Notification.mkChannel enabled (fun m => outcome (transport outside name m)).

(** The constructors behind [CHANNEL_FACTORIES]; [None] for a name that is
    not in the table and for a constructor that raises. *)
Definition build (outside : Outside) (name : string)
    (config : ChannelConfig) : option Notification.NotificationChannel :=
  let enabled := default true (cc_enabled config) in
  if String.eqb name "dingtalk" || String.eqb name "wecom" then
    Some (guarded outside name
            (if PyStr.truthy (default "" (cc_webhook_url config))
             then enabled else false))
  else if String.eqb name "email" then
    Some (guarded outside name
            (if PyStr.truthy (default "" (cc_smtp_server config))
                && PyStr.truthy (default "" (cc_username config))
                && PyStr.truthy (default "" (cc_password config))
             then enabled else false))
  else if String.eqb name "desktop" then
    Some (guarded outside name
            (if toast_installed outside then enabled else false))
  else if String.eqb name "file" then
    if log_file_opens outside then Some (unguarded outside name enabled)
    else None
  else if String.eqb name "console" then
    Some (unguarded outside name enabled)
  else None.

(** [_init_channels]. *)
Definition _init_channels (outside : Outside)
    (channels_config : gmap string ChannelConfig)
    : gmap string Notification.NotificationChannel :=
  map_imap (build outside) channels_config.

(** [_init_keyword_filter] of [monitor_v2.py]: the keywords of the
    database when there are any, otherwise those of the configuration
    file; no filter when both are empty. *)
Definition _init_keyword_filter `{PyBuiltins}
    (db_keywords config_keywords : list string) (case_sensitive : bool)
    : option MonitorV2.KeywordFilter :=
  let keywords :=
    match db_keywords with
    | [] => config_keywords
    | _ => db_keywords
    end in
  match keywords with
  | [] => None
  | _ => Some (MonitorV2.init keywords case_sensitive)
  end.

End Loading.

(** ** The scheduling loop of [monitor_v2.py] *)

Module Loop.

Inductive LoopEvent : Set :=
| SourceEvent (event : MonitorV2.Event)
| Heartbeat.

Section Run.

Context `{PyBuiltins} {DB : Type}.
Variable insert_message : DB -> MonitorV2.MessageRecord -> DB * option Z.

(** [add_source]. *)
Definition add_source (self : @MonitorV2.MultiSourceMonitor DB)
    (sources : list Base.BaseMessageSource) (source : Base.BaseMessageSource)
    : @MonitorV2.MultiSourceMonitor DB * list Base.BaseMessageSource :=
  (MonitorV2.mkMonitor (MonitorV2.db self) (MonitorV2.keyword_filter self)
     (MonitorV2.notification_system self) (MonitorV2.total_messages self)
     (MonitorV2.matched_messages self)
     (<[ Base.name source := 0 ]> (MonitorV2._source_last_poll self)),
   sources ++ [source]).

(** The [for source in self.sources] loop of one pass; [outside i] gives,
    for the source at position [i], what its class does in this pass and
    the reading of [time.time()] for it. *)
Fixpoint visit_sources (self : @MonitorV2.MultiSourceMonitor DB) (i : nat)
    (sources : list Base.BaseMessageSource)
    (outside : nat -> MonitorV2.SourceClass * Z)
    : @MonitorV2.MultiSourceMonitor DB * list Base.BaseMessageSource
      * list MonitorV2.Event :=
  match sources with
  | [] => (self, [], [])
  | source :: rest =>
      let '(self1, source1, events1) :=
        MonitorV2.visit insert_message self (outside i).1 source (outside i).2 in
      let '(self2, rest2, events2) :=
        visit_sources self1 (S i) rest outside in
      (self2, source1 :: rest2, events1 ++ events2)
  end.

(** One pass of the [while self.running] loop: the sources, then the
    heartbeat counter. *)
Definition run_iteration (self : @MonitorV2.MultiSourceMonitor DB)
    (sources : list Base.BaseMessageSource) (heartbeat_counter : Z)
    (outside : nat -> MonitorV2.SourceClass * Z)
    : @MonitorV2.MultiSourceMonitor DB * list Base.BaseMessageSource * Z
      * list LoopEvent :=
  let '(self', sources', events) := visit_sources self 0 sources outside in
  let heartbeat_counter := heartbeat_counter + 1 in
  if 300 <=? heartbeat_counter
  then (self', sources', 0, map SourceEvent events ++ [Heartbeat])
  else (self', sources', heartbeat_counter, map SourceEvent events).

(** The passes of the loop until it is stopped, one element of [passes]
    per pass. *)
Fixpoint run_loop (self : @MonitorV2.MultiSourceMonitor DB)
    (sources : list Base.BaseMessageSource) (heartbeat_counter : Z)
    (passes : list (nat -> MonitorV2.SourceClass * Z))
    : @MonitorV2.MultiSourceMonitor DB * list Base.BaseMessageSource * Z
      * list LoopEvent :=
  match passes with
  | [] => (self, sources, heartbeat_counter, [])
  | outside :: rest =>
      let '(self1, sources1, counter1, events1) :=
        run_iteration self sources heartbeat_counter outside in
      let '(self2, sources2, counter2, events2) :=
        run_loop self1 sources1 counter1 rest in
      (self2, sources2, counter2, events1 ++ events2)
  end.

End Run.

End Loop.

(** ** [Config] of [monitor.py] *)

Module Config.

(** A value loaded from the YAML file; [YScalar] is a scalar of another
    kind (a float, a date), given as it is written. *)
Inductive Yaml : Type :=
| YNull
| YBool (b : bool)
| YInt (z : Z)
| YStr (s : string)
| YScalar (text : string)
| YList (items : list Yaml)
| YDict (entries : gmap string Yaml).

(** The loop of [get] over the parts of the key: [None] when it reaches
    [return default]. *)
Fixpoint walk (value : Yaml) (keys : list string) : option Yaml :=
  match keys with
  | [] => Some value
  | k :: rest =>
      match value with
      | YDict entries =>
          match entries !! k with
          | Some v => walk v rest
          | None => None
          end
      | _ => None
      end
  end.

Definition dot : Ascii.ascii := Ascii.ascii_of_nat 46.

(** [get]. *)
Definition get (config : Yaml) (key : string) (default_value : Yaml) : Yaml :=
  match walk config (PyText.split_on dot key) with
  | Some value => value
  | None => default_value
  end.

End Config.

(** ** Specification vocabulary *)

(** [FirstMatch P l r]: [r] is the first element of [l] that satisfies
    [P], or [None] when no element does. *)
Inductive FirstMatch (P : string -> bool) : list string -> option string -> Prop :=
| FirstMatch_none (l : list string) :
    (forall x, x ∈ l -> P x = false) -> FirstMatch P l None
| FirstMatch_some (pre : list string) (k : string) (post : list string) :
    (forall x, x ∈ pre -> P x = false) -> P k = true ->
    FirstMatch P (pre ++ k :: post) (Some k).

(** [Substring sub s]: [sub] occurs in [s]. *)
Definition Substring (sub s : string) : Prop :=
  exists pre post : string, s = pre +:+ sub +:+ post.

(** [channel_ready chans c]: the test [channel and channel.is_available()]
    of the dispatch loop for the channel name [c]. *)
Definition channel_ready (chans : gmap string Notification.NotificationChannel)
    (c : string) : bool :=
  match chans !! c with
  | Some channel => Notification.is_available channel
  | None => false
  end.

(** The system after a series of [notify] calls, each with the clock
    reading of its cooldown check. *)
Definition handle_all `{PyBuiltins} (self : Notification.NotificationSystem)
    (calls : list (Z * Notification.NotificationMessage))
    : Notification.NotificationSystem :=
  foldl (fun s call => Notification.after s (fst call) (snd call)) self calls.

(** The records handed to [insert_message], in order, whether the insert
    succeeded or raised. *)
Fixpoint submitted (events : list MonitorV2.Event) : list MonitorV2.MessageRecord :=
  match events with
  | [] => []
  | MonitorV2.Stored record _ :: rest => record :: submitted rest
  | MonitorV2.StoreFailed record :: rest => record :: submitted rest
  | _ :: rest => submitted rest
  end.

(** The record a message is stored as: its channel, text and time, with
    the keyword found by the filter of the monitor. *)
Definition expected_record `{PyBuiltins}
    (keyword_filter : option MonitorV2.KeywordFilter)
    (msg : Message.ChatMessage) : MonitorV2.MessageRecord :=
  MonitorV2.to_record msg
    match keyword_filter with
    | Some kf => MonitorV2.check kf (Some (Message.content msg))
    | None => None
    end.

(** The entry that [notify] writes for the channel name [c]: [True] only
    for a channel that is present and available and whose [send] returned
    [True]. *)
Definition channel_result (chans : gmap string Notification.NotificationChannel)
    (m : Notification.NotificationMessage) (c : string) : bool :=
  match chans !! c with
  | Some channel =>
      if Notification.is_available channel then
        match Notification.send channel m with
        | Notification.Returned ok => ok
        | _ => false
        end
      else false
  | None => false
  end.

(** A series of polls of one screen source, each with its clock reading
    and what the capture delivered: the source afterwards and all the
    messages returned. *)
Fixpoint poll_all `{PyBuiltins} (self : Base.BaseMessageSource)
    (calls : list (Z * Screen.Capture))
    : Base.BaseMessageSource * list Message.ChatMessage :=
  match calls with
  | [] => (self, [])
  | call :: rest =>
      let '(self1, out1) := Screen.poll self (fst call) (snd call) in
      let '(self2, out2) := poll_all self1 rest in
      (self2, out1 ++ out2)
  end.

(** The captures that [poll] records as a failure. *)
Definition is_failure (capture : Screen.Capture) : bool :=
  match capture with
  | Screen.NoScreenshot => true
  | Screen.Failed _ => true
  | _ => false
  end.

(** The keyword that the filter of the monitor finds in a message, and
    whether it counts as a match ([if matched_keyword:]). *)
Definition found_keyword `{PyBuiltins}
    (keyword_filter : option MonitorV2.KeywordFilter)
    (msg : Message.ChatMessage) : option string :=
  match keyword_filter with
  | Some kf => MonitorV2.check kf (Some (Message.content msg))
  | None => None
  end.

Definition is_hit `{PyBuiltins}
    (keyword_filter : option MonitorV2.KeywordFilter)
    (msg : Message.ChatMessage) : bool :=
  Base.truthy_opt (found_keyword keyword_filter msg).

(** The number of successful inserts among the events. *)
Fixpoint stored_count (events : list MonitorV2.Event) : nat :=
  match events with
  | [] => O
  | MonitorV2.Stored _ _ :: rest => S (stored_count rest)
  | _ :: rest => stored_count rest
  end.

(** One call of the legacy [notify]: clock reading, title, content and
    [dedup_key]. *)
Record LegacyCall : Set := mkLegacyCall {
  call_time : Z;
  call_title : string;
  call_content : string;
  call_key : option string
}.

Definition legacy_key (call : LegacyCall) : string :=
  match call_key call with
  | Some k => k
  | None => Legacy.default_key (call_title call) (call_content call)
  end.

(** The notifications that a series of calls lets through, each with its
    clock reading and key, in order. *)
Fixpoint legacy_deliveries (self : Legacy.NotificationManager)
    (calls : list LegacyCall) : list (Z * string) :=
  match calls with
  | [] => []
  | call :: rest =>
      let r := Legacy.notify self (call_time call) (call_title call)
                 (call_content call) (call_key call) in
      match r.2 with
      | Some _ => (call_time call, legacy_key call) :: legacy_deliveries r.1 rest
      | None => legacy_deliveries r.1 rest
      end
  end.


(** The message a call of the parser returned, if it returned one. *)
Definition parsed_message (outcome : WeChatApi.Parse)
    : option Message.ChatMessage :=
  match outcome with
  | WeChatApi.ReturnedMessage msg => Some msg
  | _ => None
  end.

Inductive ApiOp : Set :=
| Push (source_name : string) (raw : WeChatApi.Payload)
| PollAt (now : Z).

(** A series of pushes and polls: the queues and the source afterwards,
    and all the messages the polls returned. *)
Fixpoint api_run `{WeChatApi.PyConversions}
    (queues : gmap string (list WeChatApi.Payload))
    (self : WeChatApi.WeChatApiSource) (ops : list ApiOp)
    : gmap string (list WeChatApi.Payload) * WeChatApi.WeChatApiSource
      * list Message.ChatMessage :=
  match ops with
  | [] => (queues, self, [])
  | Push source_name raw :: rest =>
      api_run (WeChatApi.add_webhook_message queues source_name raw).1 self rest
  | PollAt now :: rest =>
      let '(queues1, self1, out1) := WeChatApi.poll queues self now in
      let '(queues2, self2, out2) := api_run queues1 self1 rest in
      (queues2, self2, out1 ++ out2)
  end.

(** The number of heartbeats among the events of the loop. *)
Fixpoint heartbeats (events : list Loop.LoopEvent) : nat :=
  match events with
  | [] => O
  | Loop.Heartbeat :: rest => S (heartbeats rest)
  | _ :: rest => heartbeats rest
  end.


(** ** A runtime and collaborators for the worked examples *)

Module Sample.

Definition lower_char (c : Ascii.ascii) : Ascii.ascii :=
  let n := Ascii.nat_of_ascii c in
  if (65 <=? n)%nat && (n <=? 90)%nat then Ascii.ascii_of_nat (n + 32) else c.

Fixpoint lower (s : string) : string :=
  match s with
  | EmptyString => EmptyString
  | String c s' => String (lower_char c) (lower s')
  end.

(** Case folding of the ASCII letters, a similarity that only recognises
    equal strings, and stdpp's enumeration of a set. *)
Definition runtime : PyBuiltins :=
  {| str_lower := lower;
     SequenceMatcher_ratio := fun a b => if String.eqb a b then 1%Q else 0%Q;
     set_to_list := elements;
     set_to_list_perm := fun s => reflexivity (elements s) |}.

(** Two channels that always deliver, and a system with one rule. *)
Definition console : Notification.NotificationChannel :=
  Notification.mkChannel true (fun _ => Notification.Returned true).

Definition file : Notification.NotificationChannel :=
  Notification.mkChannel true (fun _ => Notification.Returned true).

Definition both_channels : gmap string Notification.NotificationChannel :=
  <[ "console" := console ]> (<[ "file" := file ]> ∅).

Definition refund_rule : Notification.NotificationRule :=
  Notification.mkNotificationRule "refunds" ["refund"] ["console"]
    Notification.NORMAL 60 true.

Definition urgent_rule : Notification.NotificationRule :=
  Notification.mkNotificationRule "urgent" ["refund"; "complaint"]
    ["file"; "console"] Notification.HIGH 30 true.

Definition system (on : bool) (rules : list Notification.NotificationRule)
    : Notification.NotificationSystem :=
  Notification.mkSystem on both_channels rules (Some ["console"; "file"]) ∅.

(** A notification for [keyword] from the window [win], created at [t]. *)
Definition message (keyword : string) (t : Z) : Notification.NotificationMessage :=
  Notification.mkNotificationMessage "match" "text" Notification.NORMAL
    keyword "win" t.

(** A chat message that carries the id [i]. *)
Definition chat (i : string) : Message.ChatMessage :=
  Message.mkChatMessage i "wechat_win" "win" "text" 0 "" "" false [].

(** A chat message with the id [i] and the text [text]. *)
Definition said (i text : string) : Message.ChatMessage :=
  Message.mkChatMessage i "wechat_win" "win" text 0 "" "" false [].

(** A store that keeps the records in a list and raises on the text
    [corrupt]. *)
Definition insert_message (db : list MonitorV2.MessageRecord)
    (record : MonitorV2.MessageRecord)
    : list MonitorV2.MessageRecord * option Z :=
  if String.eqb (MonitorV2.message_text record) "corrupt" then (db, None)
  else (db ++ [record], Some (Z.of_nat (length db) + 1)).

(** A source polled every five seconds and the monitor it is added to. *)
Definition wx : Base.BaseMessageSource :=
  Base.mkSource "wx" "wechat_win" true 5 None None 0 0 ∅.

Definition monitor : @MonitorV2.MultiSourceMonitor (list MonitorV2.MessageRecord) :=
  MonitorV2.mkMonitor [] (Some (@MonitorV2.init runtime ["Refund"] false))
    true 0 0 (<[ "wx" := 0 ]> ∅).

(** An API source named [kf] and a pushed text message. *)
Definition kf : WeChatApi.WeChatApiSource :=
  WeChatApi.mkApiSource
    (Base.mkSource "kf" "wechat_kf" true 5 None None 0 0 ∅) "wx123" "secret" ∅.

(** A text message pushed by the user [user-1] with the given
    [CreateTime]. *)
Definition pushed_at (create_time : WeChatApi.PyVal) (msg_id : Z)
    (text : string) : WeChatApi.Payload :=
  WeChatApi.Object
    (WeChatApi.mkRaw (Some (WeChatApi.VStr "text"))
       (Some (WeChatApi.VInt msg_id)) (Some (WeChatApi.VStr "user-1"))
       (Some (WeChatApi.VStr "gh_1")) (Some text) (Some create_time)).

Definition pushed (msg_id : Z) (text : string) : WeChatApi.Payload :=
  pushed_at (WeChatApi.VInt 1700000000) msg_id text.

(** Conversions for the examples: [int(s)] reads decimal digits, and
    [datetime.fromtimestamp] accepts the years 1 to 9999. *)
Fixpoint digits (s : string) (acc : Z) : option Z :=
  match s with
  | EmptyString => Some acc
  | String c s' =>
      let n := Ascii.nat_of_ascii c in
      if (48 <=? n)%nat && (n <=? 57)%nat
      then digits s' (10 * acc + Z.of_nat (n - 48))
      else None
  end.

Definition conversions : WeChatApi.PyConversions :=
  {| WeChatApi.int_of_str :=
       fun s => if PyStr.truthy s then digits s 0 else None;
     WeChatApi.fromtimestamp :=
       fun n => if (-62135596800 <=? n) && (n <=? 253402300799)
                then Some (n * 1000000) else None |}.

End Sample.

(** * Properties *)

(** ** Strings *)

Lemma startswith_spec (s p : string) :
  PyStr.startswith s p = true <-> exists t, s = p +:+ t.
Proof.
  revert s. induction p as [|a p IH]; intros s; simpl.
  - split; [intros _; by exists s | done].
  - destruct s as [|b s].
    + split; [done | intros [t Ht]; discriminate].
    + destruct (Ascii.eqb a b) eqn:E.
      * apply Ascii.eqb_eq in E as ->. rewrite IH. split.
        -- intros [t ->]. by exists t.
        -- intros [t Ht]. injection Ht as ->. by exists t.
      * split; [done|]. intros [t Ht]. injection Ht as <- _.
        by rewrite Ascii.eqb_refl in E.
Qed.

Lemma contains_spec (sub s : string) :
  PyStr.contains sub s = true <-> Substring sub s.
Proof.
  unfold Substring. induction s as [|c s IH]; simpl.
  - rewrite startswith_spec. split.
    + intros [t Ht]. exists "", t. done.
    + intros [[|a pre] [post Hp]]; [by exists post|discriminate].
  - rewrite orb_true_iff, startswith_spec, IH. split.
    + intros [[t Ht]|(pre & post & ->)].
      * exists "", t. done.
      * exists (String c pre), post. done.
    + intros [[|a pre] [post Hp]].
      * left. by exists post.
      * right. injection Hp as -> ->. by exists pre, post.
Qed.

(** ** Rule matching *)

Import Notification.

Lemma match_rules_filter (rs : list NotificationRule) (m : NotificationMessage) :
  _match_rules rs m =
  List.filter (fun r => enabled r && rule_keyword_hit m r) rs.
Proof.
  induction rs as [|r rs IH]; simpl; [done|].
  destruct (enabled r); simpl; [|done].
  destruct (rule_keyword_hit m r); by rewrite IH.
Qed.

Lemma rule_keyword_hit_spec (m : NotificationMessage) (r : NotificationRule) :
  rule_keyword_hit m r = true <->
  exists kw, kw ∈ keywords r /\ Substring kw (keyword m).
Proof.
  unfold rule_keyword_hit. rewrite existsb_exists. split.
  - intros (kw & Hin & Hc). exists kw. split.
    + by apply list_elem_of_In.
    + by apply contains_spec.
  - intros (kw & Hin & Hc). exists kw. split.
    + by apply list_elem_of_In.
    + by apply contains_spec.
Qed.

(** C1 (as amended). A rule is returned by [_match_rules] exactly when it
    is one of the configured rules, it is enabled, and at least one of its
    keyword entries occurs as a substring of the message's keyword: each
    rule keyword is tested against the message keyword. The matched rules
    come out in configuration order. *)
Theorem match_rules_iff (rs : list NotificationRule) (m : NotificationMessage) :
  (forall r : NotificationRule,
      r ∈ _match_rules rs m <->
      r ∈ rs /\ enabled r = true /\
      exists kw, kw ∈ keywords r /\ Substring kw (keyword m))
  /\ sublist (_match_rules rs m) rs.
Proof.
  rewrite match_rules_filter. split.
  - intros r. rewrite list_elem_of_In, filter_In, andb_true_iff,
      rule_keyword_hit_spec, <- list_elem_of_In. tauto.
  - induction rs as [|r rs IH]; simpl; [constructor|].
    destruct (enabled r && rule_keyword_hit m r); by constructor.
Qed.

(** C1, the claim as written, fails. The only rule has the keyword entry
    [refund]; the message keyword [refund now] does not occur inside that
    entry, yet the rule is matched, because the entry occurs inside the
    message keyword. *)
Lemma match_rules_direction_counterexample :
  let rule :=
    mkNotificationRule "r1" ["refund"] ["console"] NORMAL 60 true in
  let message :=
    mkNotificationMessage "t" "c" NORMAL "refund now" "win" 0 in
  rule ∈ _match_rules [rule] message /\
  enabled rule = true /\
  forall kw, kw ∈ keywords rule -> PyStr.contains (keyword message) kw = false.
Proof.
  simpl. split; [|split; [done|]].
  - vm_compute. left.
  - intros kw Hkw. apply list_elem_of_singleton in Hkw as ->. reflexivity.
Qed.

(** ** Keyword filters *)

Lemma first_match_cons_hit (P : string -> bool) (k : string) (l : list string) :
  P k = true -> FirstMatch P (k :: l) (Some k).
Proof.
  intros Hk. apply (FirstMatch_some P [] k l); [|done].
  intros x Hx. by apply not_elem_of_nil in Hx.
Qed.

Lemma first_match_cons_miss (P : string -> bool) (k : string)
    (l : list string) (r : option string) :
  P k = false -> FirstMatch P l r -> FirstMatch P (k :: l) r.
Proof.
  intros Hk [l' Hall | pre k' post Hpre Hk'].
  - constructor. intros x [->|Hx]%elem_of_cons; auto.
  - apply (FirstMatch_some P (k :: pre) k' post); [|done].
    intros x [->|Hx]%elem_of_cons; auto.
Qed.

Lemma monitor_check_loop_first `{PyBuiltins} (self : Monitor.KeywordFilter)
    (text check_text : string) (kws : list string) :
  FirstMatch (Monitor.keyword_matches self text check_text) kws
    (Monitor.check_loop self text check_text kws).
Proof.
  induction kws as [|k kws IH]; simpl.
  - constructor. intros x Hx. by apply not_elem_of_nil in Hx.
  - destruct (Monitor.keyword_matches self text check_text k) eqn:E.
    + by apply first_match_cons_hit.
    + by apply first_match_cons_miss.
Qed.

Lemma monitor_v2_check_loop_first (check_text : string) (kws : list string) :
  FirstMatch (fun k => PyStr.contains k check_text) kws
    (MonitorV2.check_loop check_text kws).
Proof.
  induction kws as [|k kws IH]; simpl.
  - constructor. intros x Hx. by apply not_elem_of_nil in Hx.
  - destruct (PyStr.contains k check_text) eqn:E.
    + by apply (first_match_cons_hit (fun k => PyStr.contains k check_text)).
    + by apply (first_match_cons_miss (fun k => PyStr.contains k check_text)).
Qed.

(** The scenarios of the specification: [contain] mode, not case
    sensitive, on a text that holds the keyword, and on a text in which the
    OCR split the keyword and misread one character. *)
Example check_contains_scenario :
  @Monitor.check Sample.runtime
    (Monitor.mkKeywordFilter ["投诉"; "退款"] "contain" false 0.7)
    (Some "我要退款") = Some "退款".
Proof. vm_compute. reflexivity. Qed.

Example check_ocr_scenario :
  @Monitor.check Sample.runtime
    (Monitor.mkKeywordFilter ["投诉"; "退款"] "contain" false 0.7)
    (Some "我要退 欵") = Some "退款".
Proof. vm_compute. reflexivity. Qed.

Example check_first_of_two_scenario :
  @Monitor.check Sample.runtime
    (Monitor.mkKeywordFilter ["fund"; "refund"] "contain" false 0.7)
    (Some "Refund please") = Some "fund".
Proof. vm_compute. reflexivity. Qed.

Example check_v2_scenario :
  @MonitorV2.check Sample.runtime
    (@MonitorV2.init Sample.runtime ["Complaint"; "Refund"] false)
    (Some "REFUND now") = Some "refund".
Proof. vm_compute. reflexivity. Qed.

(** A first match is unique: the relation determines the result. *)
Lemma first_match_functional (P : string -> bool) (l : list string)
    (r1 r2 : option string) :
  FirstMatch P l r1 -> FirstMatch P l r2 -> r1 = r2.
Proof.
  intros H1. revert r2. induction l as [|x l IH]; intros r2 H2.
  - inversion H1 as [? _ | pre k post _ _ Heq]; subst;
      [|by destruct pre]; inversion H2 as [? _ | pre k post _ _ Heq]; subst;
      [done | by destruct pre].
  - destruct (P x) eqn:Px.
    + inversion H1 as [? Hall | pre k post Hpre Hk Heq]; subst.
      { rewrite Hall in Px; [done | left]. }
      destruct pre as [|y pre]; simplify_eq/=;
        [| rewrite Hpre in Px; [done | left]].
      inversion H2 as [? Hall | pre k post Hpre' Hk' Heq]; subst.
      { rewrite Hall in Px; [done | left]. }
      destruct pre as [|y pre]; simplify_eq/=; [done|].
      rewrite Hpre' in Px; [done | left].
    + assert (forall r, FirstMatch P (x :: l) r -> FirstMatch P l r) as Htl.
      { intros r Hr. inversion Hr as [? Hall | pre k post Hpre Hk Heq]; subst.
        - constructor. intros y Hy. apply Hall. by right.
        - destruct pre as [|y pre]; simplify_eq/=; [congruence|].
          constructor; [|done]. intros z Hz. apply Hpre. by right. }
      apply IH; by apply Htl.
Qed.

(** C9. Both keyword filters ([monitor.py] and [monitor_v2.py]) return
    [None] for a text that is [None] or empty; for any other text,
    whatever the keyword list, the match mode and the case setting, the
    result is the first keyword, in the configured order, that matches the
    text, and [None] when no keyword matches. No keyword after the first
    matching one is looked at. *)
Theorem check_first_keyword `{PyBuiltins} :
  (forall (self : Monitor.KeywordFilter) (text : option string),
      ((text = None \/ text = Some "") /\ Monitor.check self text = None)
      \/ exists t, text = Some t /\ t <> "" /\
           FirstMatch
             (Monitor.keyword_matches self t (Monitor.fold_case self t))
             (Monitor.keywords self) (Monitor.check self text))
  /\
  (forall (self : MonitorV2.KeywordFilter) (text : option string),
      ((text = None \/ text = Some "") /\ MonitorV2.check self text = None)
      \/ exists t, text = Some t /\ t <> "" /\
           FirstMatch
             (fun k => PyStr.contains k
                         (if MonitorV2.case_sensitive self then t
                          else str_lower t))
             (MonitorV2.keywords self) (MonitorV2.check self text)).
Proof.
  split; intros self [[|c t]|]; simpl; try (left; split; [auto | done]).
  - right. exists (String c t). split; [done|]. split; [done|].
    apply monitor_check_loop_first.
  - right. exists (String c t). split; [done|]. split; [done|].
    apply monitor_v2_check_loop_first.
Qed.

(** ** Channel resolution and dispatch *)

Lemma set_to_list_elem `{PyBuiltins} (s : gset string) (c : string) :
  c ∈ set_to_list s <-> c ∈ s.
Proof. rewrite (set_to_list_perm s). apply elem_of_elements. Qed.

Lemma set_to_list_NoDup `{PyBuiltins} (s : gset string) : NoDup (set_to_list s).
Proof. rewrite (set_to_list_perm s). apply NoDup_elements. Qed.

Lemma merged_channels_from (rs : list NotificationRule) (acc : gset string)
    (c : string) :
  c ∈ foldl (fun acc rule => acc ∪ list_to_set (channels rule)) acc rs <->
  c ∈ acc \/ exists r, r ∈ rs /\ c ∈ channels r.
Proof.
  revert acc. induction rs as [|r rs IH]; intros acc; simpl.
  - split; [auto|]. intros [?|(r & Hr & _)]; [done|].
    by apply not_elem_of_nil in Hr.
  - rewrite IH, elem_of_union, elem_of_list_to_set. split.
    + intros [[?|?]|(r' & Hr' & Hc)]; [by left| |].
      * right. exists r. split; [left|done].
      * right. exists r'. split; [by right|done].
    + intros [?|(r' & [->|Hr']%elem_of_cons & Hc)]; [by left; left| |].
      * left. by right.
      * right. by exists r'.
Qed.

Lemma merged_channels_elem (rs : list NotificationRule) (c : string) :
  c ∈ merged_channels rs <-> exists r, r ∈ rs /\ c ∈ channels r.
Proof.
  unfold merged_channels. rewrite merged_channels_from. split.
  - intros [Hc|?]; [|done]. by apply not_elem_of_empty in Hc.
  - by right.
Qed.

Lemma min_cooldown_from (rs : list NotificationRule) (m : Z) :
  let r := foldl (fun m rule => Z.min m (cooldown rule)) m rs in
  r <= m /\ (forall x, x ∈ rs -> r <= cooldown x) /\
  (r = m \/ exists x, x ∈ rs /\ r = cooldown x).
Proof.
  revert m. induction rs as [|x rs IH]; intros m; simpl.
  - split; [lia|]. split; [|by left].
    intros y Hy. by apply not_elem_of_nil in Hy.
  - destruct (IH (Z.min m (cooldown x))) as (Hle & Hall & Hex).
    split; [lia|]. split.
    + intros y [->|Hy]%elem_of_cons; [lia | by apply Hall].
    + destruct Hex as [Heq|(y & Hy & Heq)].
      * destruct (Z.min_spec m (cooldown x)) as [[_ Hm]|[_ Hm]].
        -- left. lia.
        -- right. exists x. split; [left | lia].
      * right. exists y. split; [by right | done].
Qed.

Lemma min_cooldown_spec (first : NotificationRule)
    (others : list NotificationRule) :
  (exists r, r ∈ first :: others /\ min_cooldown first others = cooldown r) /\
  (forall r, r ∈ first :: others -> min_cooldown first others <= cooldown r).
Proof.
  unfold min_cooldown.
  destruct (min_cooldown_from others (cooldown first)) as (Hle & Hall & Hex).
  split.
  - destruct Hex as [Heq|(y & Hy & Heq)].
    + exists first. split; [left | done].
    + exists y. split; [by right | done].
  - intros r [->|Hr]%elem_of_cons; [done | by apply Hall].
Qed.

Lemma schedule_spec (chans : gmap string NotificationChannel)
    (names : list string) (res : gmap string bool) :
  map fst (schedule chans names res).1 =
    List.filter (channel_ready chans) names /\
  dom (schedule chans names res).2 =
    dom res ∪ list_to_set
                (List.filter (fun c => negb (channel_ready chans c)) names).
Proof.
  revert res. induction names as [|n names IH]; intros res; simpl.
  - split; [done | set_solver].
  - assert (channel_ready chans n =
            match chans !! n with
            | Some ch => is_available ch | None => false end) as R by done.
    rewrite R. clear R. destruct (chans !! n) as [ch|] eqn:E.
    + destruct (is_available ch) eqn:A; simpl.
      * specialize (IH res).
        destruct (schedule chans names res) as [tasks res'] eqn:S.
        simpl in *. destruct IH as [-> ->]. done.
      * destruct (IH (<[n:=false]> res)) as [-> ->].
        split; [done|]. rewrite dom_insert_L. set_solver.
    + simpl. destruct (IH (<[n:=false]> res)) as [-> ->].
      split; [done|]. rewrite dom_insert_L. set_solver.
Qed.

Lemma run_tasks_dom (m : NotificationMessage)
    (tasks : list (string * NotificationChannel)) (res : gmap string bool) :
  dom (run_tasks m tasks res) = dom res ∪ list_to_set (map fst tasks).
Proof.
  unfold run_tasks. revert res.
  induction tasks as [|[n ch] tasks IH]; intros res; simpl.
  - set_solver.
  - rewrite IH. destruct (_send_with_timeout ch m);
      rewrite dom_insert_L; set_solver.
Qed.

(** What [notify] does once the system is enabled and the cooldown check
    has let the notification through. *)
Lemma notify_dispatch `{PyBuiltins} (self : NotificationSystem) (now : Z)
    (m : NotificationMessage) :
  system_enabled self = true ->
  (_check_cooldown (_cooldown_records self) now (cooldown_key m)
     (resolve self m).2).1 = true ->
  sends (notify self now m) =
    List.filter (channel_ready (system_channels self)) (resolve self m).1 /\
  dom (results (notify self now m)) = list_to_set (resolve self m).1 /\
  records_after (notify self now m) =
    (_check_cooldown (_cooldown_records self) now (cooldown_key m)
       (resolve self m).2).2.
Proof.
  intros Hon Hok. unfold notify. rewrite Hon. simpl.
  destruct (resolve self m) as [chs cd]. simpl in *.
  destruct (_check_cooldown _ now (cooldown_key m) cd) as [ok recs].
  simpl in *. subst ok. simpl.
  pose proof (schedule_spec (system_channels self) chs ∅) as [Ht Hd].
  destruct (schedule (system_channels self) chs ∅) as [tasks res].
  simpl in *. split; [done|]. split; [|done].
  rewrite run_tasks_dom, Hd, Ht, dom_empty_L.
  apply set_eq. intros c.
  rewrite !elem_of_union, !elem_of_list_to_set, !list_elem_of_In,
    !filter_In.
  destruct (channel_ready (system_channels self) c); simpl.
  - split; [|tauto]. intros [[[]%not_elem_of_empty|[? ?]]|[? _]]; tauto.
  - split; [|tauto]. intros [[[]%not_elem_of_empty|[? ?]]|[? ?]]; tauto.
Qed.

(** C3 (as amended). When at least one rule matches a message, the channel
    list that [notify] resolves holds each channel once and consists
    exactly of the channels named by some matched rule, and the cooldown it
    applies is the least cooldown among the matched rules. If the system
    is enabled and the cooldown check lets the notification through, the
    returned map has exactly these channels as keys, and a send is started,
    once, for each of them that is present and available. If the system
    is disabled, or the cooldown check holds the notification back, no
    send is started and the returned map is empty. *)
Theorem resolve_union_and_min_cooldown `{PyBuiltins}
    (self : NotificationSystem) (m : NotificationMessage) :
  _match_rules (rules self) m <> [] ->
  let matched := _match_rules (rules self) m in
  let chs := (resolve self m).1 in
  let cd := (resolve self m).2 in
  NoDup chs /\
  (forall c, c ∈ chs <-> exists r, r ∈ matched /\ c ∈ channels r) /\
  (exists r, r ∈ matched /\ cd = cooldown r) /\
  (forall r, r ∈ matched -> cd <= cooldown r) /\
  forall now : Z,
    (system_enabled self = true ->
     (_check_cooldown (_cooldown_records self) now (cooldown_key m) cd).1
       = true ->
     dom (results (notify self now m)) = list_to_set chs /\
     NoDup (sends (notify self now m)) /\
     forall c, c ∈ sends (notify self now m) <->
               c ∈ chs /\ channel_ready (system_channels self) c = true) /\
    (system_enabled self = false \/
     (_check_cooldown (_cooldown_records self) now (cooldown_key m) cd).1
       = false ->
     sends (notify self now m) = [] /\ results (notify self now m) = ∅).
Proof.
  intros Hne. simpl.
  assert (resolve self m =
          match _match_rules (rules self) m with
          | [] => (configured_default_channels self, 0)
          | first :: others =>
              (set_to_list (merged_channels (first :: others)),
               min_cooldown first others)
          end) as Hres by done.
  destruct (_match_rules (rules self) m) as [|first others] eqn:Hm; [done|].
  assert (NoDup (resolve self m).1) as Hnd.
  { rewrite Hres. apply set_to_list_NoDup. }
  split; [done|]. split.
  { intros c. rewrite Hres. simpl fst.
    by rewrite set_to_list_elem, merged_channels_elem. }
  destruct (min_cooldown_spec first others) as [Hex Hall].
  split; [by rewrite Hres|]. split; [by rewrite Hres|].
  intros now. split.
  - intros Hon Hok.
    destruct (notify_dispatch self now m Hon Hok) as (Hs & Hd & _).
    split; [done|]. rewrite Hs. split.
    + by apply NoDup_ListNoDup, List.NoDup_filter, NoDup_ListNoDup.
    + intros c. by rewrite list_elem_of_In, filter_In, <- list_elem_of_In.
  - intros Hheld. unfold notify.
    destruct (system_enabled self); cbn [negb]; [|done].
    destruct Hheld as [Hoff|Hno]; [done|].
    destruct (resolve self m) as [chs cd]. cbn [fst snd] in Hno.
    destruct (_check_cooldown (_cooldown_records self) now (cooldown_key m) cd)
      as [allowed recs].
    cbn [fst] in Hno. by subst allowed.
Qed.

(** The rule-union scenario of the specification: [refund] matches a rule
    with channel [console] and a rule with channels [file] and [console]. *)
Lemma resolve_union_and_min_cooldown_witness :
  let self := Sample.system true [Sample.refund_rule; Sample.urgent_rule] in
  let m := Sample.message "refund" 0 in
  (forall c, c ∈ (@resolve Sample.runtime self m).1 <->
             exists r, r ∈ _match_rules (rules self) m /\ c ∈ channels r) /\
  (forall r, r ∈ _match_rules (rules self) m ->
             (@resolve Sample.runtime self m).2 <= cooldown r).
Proof.
  intros self m.
  assert (_match_rules (rules self) m <> []) as Hne by (vm_compute; done).
  destruct (@resolve_union_and_min_cooldown Sample.runtime self m Hne)
    as (_ & Hc & _ & Hmin & _).
  split; [exact Hc | exact Hmin].
Defined.

Example resolve_union_scenario :
  @resolve Sample.runtime
    (Sample.system true [Sample.refund_rule; Sample.urgent_rule])
    (Sample.message "refund" 0)
  = (["console"; "file"], 30).
Proof. vm_compute. reflexivity. Qed.

(** C3, the claim as written, fails while a cooldown is running. The rule
    [refunds] (channel [console], cooldown 60 s) matches the keyword
    [refund] and the channel is present and available, but a notification
    with the same key went out 10 s earlier: [notify] starts no send and
    returns an empty map. The same holds on a system whose [enabled] flag
    is off. *)
Lemma matched_rule_within_cooldown_counterexample :
  let self :=
    mkSystem true Sample.both_channels [Sample.refund_rule]
      (Some ["console"; "file"]) (<[ "refund:win" := 0 ]> ∅) in
  let m := Sample.message "refund" 10000000 in
  _match_rules (rules self) m = [Sample.refund_rule] /\
  @resolve Sample.runtime self m = (["console"], 60) /\
  channel_ready (system_channels self) "console" = true /\
  sends (@notify Sample.runtime self 10000000 m) = [] /\
  results (@notify Sample.runtime self 10000000 m) = ∅ /\
  sends (@notify Sample.runtime
           (Sample.system false [Sample.refund_rule]) 10000000 m) = [].
Proof. vm_compute. repeat split. Qed.

(** C6 (as amended). When the notification system is enabled and no
    enabled rule matches the message, [notify] uses the configured default
    channels with cooldown [0]: whatever the cooldown ledger holds and
    whatever the clock reads, a send is started for every default channel
    that is present and available, the returned map has the default
    channels as keys, and the ledger is left as it was. *)
Theorem default_channels_ignore_cooldown `{PyBuiltins}
    (self : NotificationSystem) (now : Z) (m : NotificationMessage) :
  system_enabled self = true ->
  _match_rules (rules self) m = [] ->
  sends (notify self now m) =
    List.filter (channel_ready (system_channels self))
      (configured_default_channels self) /\
  (forall c, c ∈ configured_default_channels self ->
             channel_ready (system_channels self) c = true ->
             c ∈ sends (notify self now m)) /\
  dom (results (notify self now m)) =
    list_to_set (configured_default_channels self) /\
  records_after (notify self now m) = _cooldown_records self.
Proof.
  intros Hon Hm.
  assert (resolve self m = (configured_default_channels self, 0)) as Hres.
  { unfold resolve. by rewrite Hm. }
  assert ((_check_cooldown (_cooldown_records self) now (cooldown_key m)
             (resolve self m).2) = (true, _cooldown_records self)) as Hck.
  { by rewrite Hres. }
  destruct (notify_dispatch self now m Hon) as (Hs & Hd & Hr).
  { by rewrite Hck. }
  rewrite Hres in Hs, Hd. rewrite Hck in Hr. simpl in *.
  split; [done|]. split; [|done].
  intros c Hc Hready. rewrite Hs, list_elem_of_In, filter_In.
  by rewrite <- list_elem_of_In.
Qed.

(** The default-channel scenario of the specification: keyword [spam],
    default channels [console] and [file], and a ledger that was written a
    moment ago for the same key. *)
Lemma default_channels_ignore_cooldown_witness :
  let self :=
    mkSystem true Sample.both_channels [Sample.refund_rule]
      (Some ["console"; "file"]) (<[ "spam:win" := 0 ]> ∅) in
  sends (@notify Sample.runtime self 1 (Sample.message "spam" 1))
  = List.filter (channel_ready (system_channels self))
      (configured_default_channels self).
Proof.
  intros self.
  exact (proj1 (@default_channels_ignore_cooldown Sample.runtime self 1
                  (Sample.message "spam" 1) eq_refl eq_refl)).
Defined.

(** C6, the claim as written, fails on a system whose [enabled] flag is
    off: no rule matches [spam], both default channels are present and
    available, and nothing is sent. *)
Lemma default_channels_disabled_counterexample :
  let self := Sample.system false [Sample.refund_rule] in
  let m := Sample.message "spam" 0 in
  _match_rules (rules self) m = [] /\
  configured_default_channels self = ["console"; "file"] /\
  channel_ready (system_channels self) "console" = true /\
  channel_ready (system_channels self) "file" = true /\
  sends (@notify Sample.runtime self 0 m) = [] /\
  results (@notify Sample.runtime self 0 m) = ∅.
Proof. vm_compute. repeat split. Qed.

(** ** The cooldown ledger *)

Lemma check_cooldown_cases (records : gmap string Z) (now : Z)
    (key : string) (cd : Z) :
  (_check_cooldown records now key cd = (false, records) /\ 0 < cd /\
   exists last, records !! key = Some last /\ now - last < cd * 1000000)
  \/ (_check_cooldown records now key cd = (true, records) /\ cd <= 0)
  \/ (_check_cooldown records now key cd = (true, <[ key := now ]> records)
      /\ 0 < cd /\
      forall last, records !! key = Some last -> cd * 1000000 <= now - last).
Proof.
  unfold _check_cooldown. destruct (Z.leb_spec cd 0) as [Hle|Hlt].
  { right. left. done. }
  destruct (records !! key) as [last|] eqn:E.
  - destruct (Z.ltb_spec (now - last) (cd * 1000000)) as [Hin|Hout].
    + left. split; [done|]. split; [done|]. by exists last.
    + right. right. split; [done|]. split; [done|].
      intros last' [= <-]. done.
  - right. right. split; [done|]. split; [done|]. intros last' [=].
Qed.

Lemma notify_not_allowed `{PyBuiltins} (self : NotificationSystem) (now : Z)
    (m : NotificationMessage) :
  (_check_cooldown (_cooldown_records self) now (cooldown_key m)
     (resolve self m).2).1 = false ->
  notify self now m = mkNotified ∅ [] (_cooldown_records self).
Proof.
  intros Hno. unfold notify. destruct (system_enabled self); simpl; [|done].
  destruct (resolve self m) as [chs cd]. simpl in *.
  destruct (check_cooldown_cases (_cooldown_records self) now
              (cooldown_key m) cd) as [(E & _)|[(E & _)|(E & _)]];
    rewrite E in *; simpl in *; done.
Qed.

(** C10. A call of [notify] either leaves the cooldown ledger as it was, or
    the system is enabled, some rule matched, the governing cooldown is
    positive, the check allowed the send, and the only change is that the
    entry of the key [keyword:source] now holds the clock reading.
    In particular the ledger is unchanged when no rule matches (the
    default-channel path, cooldown [0]) and when the notification is
    dropped by an active cooldown; it is written when a rule-matched
    notification with positive cooldown is allowed. *)
Theorem ledger_written_only_by_allowed_rule_send `{PyBuiltins}
    (self : NotificationSystem) (now : Z) (m : NotificationMessage) :
  let key := cooldown_key m in
  let cd := (resolve self m).2 in
  let allowed :=
    (_check_cooldown (_cooldown_records self) now key cd).1 in
  let ledger' := records_after (notify self now m) in
  (ledger' = _cooldown_records self \/
   (system_enabled self = true /\ _match_rules (rules self) m <> [] /\
    0 < cd /\ allowed = true /\
    ledger' = <[ key := now ]> (_cooldown_records self))) /\
  (_match_rules (rules self) m = [] ->
   cd = 0 /\ ledger' = _cooldown_records self) /\
  (allowed = false ->
   ledger' = _cooldown_records self /\ sends (notify self now m) = []) /\
  (system_enabled self = true -> 0 < cd -> allowed = true ->
   ledger' = <[ key := now ]> (_cooldown_records self)) /\
  (forall k, k <> key -> ledger' !! k = _cooldown_records self !! k).
Proof.
  simpl.
  assert (_match_rules (rules self) m = [] -> (resolve self m).2 = 0) as Hdef.
  { intros Hm. unfold resolve. by rewrite Hm. }
  destruct (system_enabled self) eqn:Hon.
  2:{ unfold notify. rewrite Hon. simpl.
      split; [by left|]. split; [auto|]. split; [auto|]. split; [done|].
      done. }
  destruct (check_cooldown_cases (_cooldown_records self) now
              (cooldown_key m) (resolve self m).2)
    as [(E & Hpos & _)|[(E & Hle)|(E & Hpos & _)]].
  - rewrite (notify_not_allowed self now m) by (by rewrite E).
    rewrite E. simpl. split; [by left|]. split.
    { intros Hm. specialize (Hdef Hm). lia. }
    split; [done|]. split; [done|]. done.
  - destruct (notify_dispatch self now m Hon) as (_ & _ & Hr).
    { by rewrite E. }
    rewrite Hr, E. simpl. split; [by left|]. split; [auto|].
    split; [done|]. split; [lia|]. done.
  - destruct (notify_dispatch self now m Hon) as (_ & _ & Hr).
    { by rewrite E. }
    rewrite Hr, E. simpl. split.
    { right. split; [done|]. split; [|done].
      intros Hm. specialize (Hdef Hm). lia. }
    split. { intros Hm. specialize (Hdef Hm). lia. }
    split; [done|]. split; [done|].
    intros k Hk. by rewrite lookup_insert_ne.
Qed.

Lemma notify_ledger_cases `{PyBuiltins} (self : NotificationSystem) (now : Z)
    (m : NotificationMessage) :
  records_after (notify self now m) = _cooldown_records self \/
  records_after (notify self now m)
    = <[ cooldown_key m := now ]> (_cooldown_records self).
Proof.
  destruct (system_enabled self) eqn:Hon.
  2:{ left. unfold notify. by rewrite Hon. }
  destruct (check_cooldown_cases (_cooldown_records self) now
              (cooldown_key m) (resolve self m).2)
    as [(E & _)|[(E & _)|(E & _)]].
  - left. rewrite (notify_not_allowed self now m); [done | by rewrite E].
  - left. destruct (notify_dispatch self now m Hon) as (_ & _ & ->);
      by rewrite E.
  - right. destruct (notify_dispatch self now m Hon) as (_ & _ & ->);
      by rewrite E.
Qed.

Lemma handle_all_static `{PyBuiltins} (self : NotificationSystem)
    (calls : list (Z * NotificationMessage)) :
  system_enabled (handle_all self calls) = system_enabled self /\
  rules (handle_all self calls) = rules self /\
  default_channels (handle_all self calls) = default_channels self /\
  system_channels (handle_all self calls) = system_channels self.
Proof.
  revert self. induction calls as [|[t m] calls IH]; intros self; [done|].
  unfold handle_all in *. simpl. destruct (IH (after self t m)) as (-> & -> & -> & ->).
  done.
Qed.

Lemma resolve_static `{PyBuiltins} (s1 s2 : NotificationSystem)
    (m : NotificationMessage) :
  rules s1 = rules s2 -> default_channels s1 = default_channels s2 ->
  resolve s1 m = resolve s2 m.
Proof.
  intros Hr Hd. unfold resolve, configured_default_channels.
  by rewrite Hr, Hd.
Qed.

(** Once an entry of the ledger holds an instant not before [t1], later
    calls whose clock readings are not before [t1] keep it so. *)
Lemma ledger_floor `{PyBuiltins} (key : string) (t1 : Z)
    (calls : list (Z * NotificationMessage)) (self : NotificationSystem) :
  Forall (fun call => t1 <= call.1) calls ->
  (exists last, _cooldown_records self !! key = Some last /\ t1 <= last) ->
  exists last,
    _cooldown_records (handle_all self calls) !! key = Some last /\ t1 <= last.
Proof.
  revert self. induction calls as [|[t m] calls IH]; intros self Hall Hinv;
    [done|].
  apply Forall_cons in Hall as [Ht Hall]. simpl in Ht.
  unfold handle_all. simpl. apply IH; [done|]. simpl.
  destruct Hinv as (last & Hl & Hle).
  destruct (notify_ledger_cases self t m) as [-> | ->]; [by exists last|].
  destruct (decide (cooldown_key m = key)) as [->|Hne].
  - exists t. by rewrite lookup_insert_eq.
  - exists last. by rewrite lookup_insert_ne.
Qed.

(** C2 (as amended). Take a notification that the cooldown check let
    through at clock reading [t1] under a positive governing cooldown, so
    that its send was recorded for its key. Then, whatever notifications
    are handled in between (at readings not before [t1]), a notification
    with the same key handled at a reading [t2], [t1 <= t2], with
    [t2 - t1] below its governing cooldown (the least cooldown among its
    matched rules) produces no send: [notify] returns the empty map and
    leaves the ledger as it is. The instants are the clock readings of
    [_check_cooldown]; the [timestamp] field of the messages plays no
    part. *)
Theorem cooldown_blocks_repeat `{PyBuiltins} (self : NotificationSystem)
    (m1 m2 : NotificationMessage) (t1 t2 : Z)
    (between : list (Z * NotificationMessage)) :
  cooldown_key m1 = cooldown_key m2 ->
  system_enabled self = true ->
  0 < (resolve self m1).2 ->
  (_check_cooldown (_cooldown_records self) t1 (cooldown_key m1)
     (resolve self m1).2).1 = true ->
  Forall (fun call => t1 <= call.1) between ->
  t1 <= t2 ->
  t2 - t1 < (resolve self m2).2 * 1000000 ->
  let before := handle_all (after self t1 m1) between in
  notify before t2 m2 = mkNotified ∅ [] (_cooldown_records before).
Proof.
  intros Hkey Hon Hpos Hok Hbetween Hle Hin before.
  assert (_cooldown_records (after self t1 m1)
          = <[ cooldown_key m1 := t1 ]> (_cooldown_records self)) as Hfirst.
  { simpl. destruct (notify_dispatch self t1 m1 Hon Hok) as (_ & _ & ->).
    destruct (check_cooldown_cases (_cooldown_records self) t1
                (cooldown_key m1) (resolve self m1).2)
      as [(E & _)|[(E & Hcd)|(E & _)]]; rewrite E in *; simpl in *;
      [done | lia | done]. }
  destruct (ledger_floor (cooldown_key m1) t1 between (after self t1 m1))
    as (last & Hlast & Hfloor); [done | |].
  { exists t1. rewrite Hfirst. by rewrite lookup_insert_eq. }
  fold before in Hlast.
  destruct (handle_all_static (after self t1 m1) between)
    as (_ & Hrules & Hdef & _). fold before in Hrules, Hdef. simpl in *.
  assert (resolve before m2 = resolve self m2) as Hres
    by (by apply resolve_static).
  apply notify_not_allowed. rewrite Hres, <- Hkey.
  unfold _check_cooldown.
  destruct (Z.leb_spec (resolve self m2).2 0) as [Hcd|_]; [lia|].
  rewrite Hlast.
  destruct (Z.ltb_spec (t2 - last) ((resolve self m2).2 * 1000000));
    [done | lia].
Qed.

(** The cooldown test at the end of [notification_system.py]: the same
    notification twice, one second apart, under a cooldown of 60 s. *)
Lemma cooldown_blocks_repeat_witness :
  let self := Sample.system true [Sample.refund_rule] in
  let m := Sample.message "refund" 0 in
  @notify Sample.runtime
    (@handle_all Sample.runtime (@after Sample.runtime self 0 m) [])
    1000000 m
  = mkNotified ∅ []
      (_cooldown_records
         (@handle_all Sample.runtime (@after Sample.runtime self 0 m) [])).
Proof.
  intros self m.
  apply (@cooldown_blocks_repeat Sample.runtime self m m 0 1000000 []);
    try reflexivity; try constructor; vm_compute; congruence.
Defined.

(** C2, the claim as written, fails. One rule with a cooldown of 60 s;
    three notifications with the same keyword and source, handled (and
    stamped) at 0 s, 50 s and 70 s. The one at 50 s is dropped, so the
    ledger still holds 0 s; the one at 70 s follows it by 20 s, less than
    the cooldown, and is sent all the same. *)
Lemma cooldown_after_dropped_counterexample :
  let self := Sample.system true [Sample.refund_rule] in
  let first := Sample.message "refund" 50000000 in
  let second := Sample.message "refund" 70000000 in
  let before :=
    @handle_all Sample.runtime self
      [(0, Sample.message "refund" 0); (50000000, first)] in
  cooldown_key first = cooldown_key second /\
  _match_rules (rules self) first <> [] /\
  _match_rules (rules self) second <> [] /\
  timestamp second - timestamp first
    < (@resolve Sample.runtime before second).2 * 1000000 /\
  sends (@notify Sample.runtime
           (@handle_all Sample.runtime self [(0, Sample.message "refund" 0)])
           50000000 first) = [] /\
  sends (@notify Sample.runtime before 70000000 second) = ["console"] /\
  results (@notify Sample.runtime before 70000000 second)
    = {[ "console" := true ]}.
Proof. vm_compute. repeat split; congruence. Qed.

(** ** Deduplication *)

Import Message Base.

Lemma dedup_app `{PyBuiltins} (seen : gset string) (a b : list ChatMessage) :
  _deduplicate_messages seen (a ++ b) =
  ((_deduplicate_messages (_deduplicate_messages seen a).1 b).1,
   (_deduplicate_messages seen a).2
     ++ (_deduplicate_messages (_deduplicate_messages seen a).1 b).2).
Proof.
  revert seen. induction a as [|m a IH]; intros seen; simpl.
  - by destruct (_deduplicate_messages seen b).
  - destruct (decide (id m ∈ seen)); [apply IH|].
    rewrite IH.
    destruct (_deduplicate_messages (remember seen (id m)) a) as [s1 o1].
    simpl. by destruct (_deduplicate_messages s1 b).
Qed.

Lemma last_n_sublist {A : Type} (n : Z) (l : list A) : sublist (last_n n l) l.
Proof. apply sublist_drop. Qed.

Lemma trim_subseteq `{PyBuiltins} (seen : gset string) : trim seen ⊆ seen.
Proof.
  intros x. unfold trim. rewrite elem_of_list_to_set. intros Hx.
  apply set_to_list_elem. eapply elem_of_sublist; [exact Hx|].
  apply last_n_sublist.
Qed.

Lemma remember_subseteq `{PyBuiltins} (seen : gset string) (i : string) :
  remember seen i ⊆ {[ i ]} ∪ seen.
Proof.
  unfold remember. destruct (10000 <? Z.of_nat (size ({[i]} ∪ seen)));
    [apply trim_subseteq | done].
Qed.

Lemma dedup_seen_subseteq `{PyBuiltins} (seen : gset string)
    (messages : list ChatMessage) :
  (_deduplicate_messages seen messages).1
    ⊆ seen ∪ list_to_set (map id messages).
Proof.
  revert seen. induction messages as [|m ms IH]; intros seen; simpl.
  - set_solver.
  - destruct (decide (id m ∈ seen)).
    + specialize (IH seen). set_solver.
    + specialize (IH (remember seen (id m))).
      pose proof (remember_subseteq seen (id m)).
      destruct (_deduplicate_messages (remember seen (id m)) ms). simpl in *.
      set_solver.
Qed.

(** While the cache stays within its cap nothing is evicted: the cache
    grows by exactly the ids it admits. *)
Lemma dedup_no_trim `{PyBuiltins} (seen : gset string)
    (messages : list ChatMessage) :
  Z.of_nat (size (seen ∪ list_to_set (map id messages))) <= 10000 ->
  (_deduplicate_messages seen messages).1
    = seen ∪ list_to_set (map id messages) /\
  NoDup (map id (_deduplicate_messages seen messages).2) /\
  forall x, x ∈ (_deduplicate_messages seen messages).2 ->
            x ∈ messages /\ id x ∉ seen.
Proof.
  revert seen. induction messages as [|m ms IH]; intros seen Hsize; simpl.
  - split; [set_solver|]. split; [constructor|].
    intros x Hx. by apply not_elem_of_nil in Hx.
  - simpl in Hsize. destruct (decide (id m ∈ seen)) as [Hin|Hout].
    + destruct (IH seen) as (IH1 & IH2 & IH3).
      { replace (seen ∪ list_to_set (map id ms))
          with (seen ∪ ({[id m]} ∪ list_to_set (map id ms)));
          [done | set_solver]. }
      split; [rewrite IH1; set_solver|]. split; [done|].
      intros x Hx. destruct (IH3 x Hx). split; [by right | done].
    + assert (remember seen (id m) = {[id m]} ∪ seen) as Hrem.
      { unfold remember.
        destruct (Z.ltb_spec 10000 (Z.of_nat (size ({[id m]} ∪ seen))))
          as [Hbig|_]; [|done].
        assert (size ({[id m]} ∪ seen)
                <= size (seen ∪ ({[id m]} ∪ list_to_set (map id ms))))%nat
          by (apply subseteq_size; set_solver).
        lia. }
      rewrite Hrem. destruct (IH ({[id m]} ∪ seen)) as (IH1 & IH2 & IH3).
      { replace ({[id m]} ∪ seen ∪ list_to_set (map id ms))
          with (seen ∪ ({[id m]} ∪ list_to_set (map id ms)));
          [done | set_solver]. }
      destruct (_deduplicate_messages ({[id m]} ∪ seen) ms) as [s1 o1].
      simpl in *. split; [rewrite IH1; set_solver|]. split.
      * constructor; [|done]. intros Hdup.
        apply list_elem_of_fmap in Hdup as (x & Hid & Hx).
        destruct (IH3 x Hx) as [_ Hnot]. rewrite <- Hid in Hnot. set_solver.
      * intros x [->|Hx]%elem_of_cons; [split; [left | done]|].
        destruct (IH3 x Hx) as [? Hnot]. split; [by right | set_solver].
Qed.

Lemma dedup_all_seen `{PyBuiltins} (seen : gset string)
    (messages : list ChatMessage) :
  (forall x, x ∈ messages -> id x ∈ seen) ->
  _deduplicate_messages seen messages = (seen, []).
Proof.
  induction messages as [|m ms IH]; intros Hall; simpl; [done|].
  destruct (decide (id m ∈ seen)) as [_|Hout].
  - apply IH. intros x Hx. apply Hall. by right.
  - destruct Hout. apply Hall. left.
Qed.

Lemma poll_parsed `{PyBuiltins} (self : BaseMessageSource) (now : Z)
    (messages : list ChatMessage) :
  _seen_message_ids (Screen.poll self now (Screen.Parsed messages)).1
    = (_deduplicate_messages (_seen_message_ids self) messages).1 /\
  (Screen.poll self now (Screen.Parsed messages)).2
    = (_deduplicate_messages (_seen_message_ids self) messages).2.
Proof.
  simpl. by destruct (_deduplicate_messages (_seen_message_ids self) messages).
Qed.

(** C4. Take any sequence of messages run through a source's
    deduplication, and any message [m] in it, with [cache] the set of
    remembered ids at the moment [m] is reached. If the id of [m] is not in
    [cache], [m] is admitted: it appears in the result at its place. If the
    id is still in [cache], [m] is suppressed. An id that is neither in the
    initial cache nor among the earlier messages is not in [cache], so
    the first occurrence of an id is always admitted. In particular, as long
    as the ids fit within the cap (so that nothing is evicted), no id is
    delivered twice, and polling the same batch again from the same source
    delivers nothing. *)
Theorem dedup_admits_first_suppresses_later `{PyBuiltins}
    (seen : gset string) (pre : list ChatMessage) (m : ChatMessage)
    (post : list ChatMessage) :
  let cache := (_deduplicate_messages seen pre).1 in
  let out := (_deduplicate_messages seen (pre ++ m :: post)).2 in
  (id m ∉ cache ->
   out = (_deduplicate_messages seen pre).2
           ++ m :: (_deduplicate_messages (remember cache (id m)) post).2) /\
  (id m ∈ cache ->
   out = (_deduplicate_messages seen pre).2
           ++ (_deduplicate_messages cache post).2) /\
  (id m ∉ seen -> id m ∉ map id pre -> id m ∉ cache) /\
  (Z.of_nat (size (seen ∪ list_to_set (map id (pre ++ m :: post)))) <= 10000 ->
   NoDup (map id out) /\
   (forall x, x ∈ out -> id x ∉ seen) /\
   forall (self : BaseMessageSource) (now1 now2 : Z),
     _seen_message_ids self = seen ->
     (Screen.poll
        (Screen.poll self now1 (Screen.Parsed (pre ++ m :: post))).1
        now2 (Screen.Parsed (pre ++ m :: post))).2 = []).
Proof.
  intros cache out. subst cache out. rewrite dedup_app.
  cbn [fst snd _deduplicate_messages].
  split; [|split; [|split]].
  - intros Hout. destruct (decide (id m ∈ (_deduplicate_messages seen pre).1));
      [done|].
    by destruct (_deduplicate_messages
                   (remember (_deduplicate_messages seen pre).1 (id m)) post).
  - intros Hin. destruct (decide (id m ∈ (_deduplicate_messages seen pre).1));
      done.
  - intros Hs Hp Hc. apply dedup_seen_subseteq in Hc.
    apply elem_of_union in Hc as [?|Hc]; [done|].
    by apply elem_of_list_to_set in Hc.
  - intros Hsize.
    destruct (dedup_no_trim seen (pre ++ m :: post) Hsize) as (Hc & Hnd & Hx).
    rewrite dedup_app in Hc, Hnd, Hx.
    cbn [fst snd _deduplicate_messages] in Hc, Hnd, Hx.
    split; [done|]. split; [intros x Hin; by apply Hx|].
    intros self now1 now2 <-.
    destruct (poll_parsed self now1 (pre ++ m :: post)) as [Hs1 _].
    destruct (poll_parsed
                (Screen.poll self now1 (Screen.Parsed (pre ++ m :: post))).1
                now2 (pre ++ m :: post)) as [_ ->].
    rewrite Hs1, dedup_all_seen; [done|].
    intros x Hin.
    destruct (dedup_no_trim (_seen_message_ids self) (pre ++ m :: post) Hsize)
      as (-> & _ & _).
    apply elem_of_union. right. apply elem_of_list_to_set.
    apply list_elem_of_fmap. by exists x.
Qed.

(** Three messages, the third repeating the id of the first. *)
Lemma dedup_admits_first_suppresses_later_witness :
  (@_deduplicate_messages Sample.runtime ∅
     ([Sample.chat "a"; Sample.chat "b"] ++ Sample.chat "a" :: [])).2
  = (@_deduplicate_messages Sample.runtime ∅
       [Sample.chat "a"; Sample.chat "b"]).2
      ++ (@_deduplicate_messages Sample.runtime
            (@_deduplicate_messages Sample.runtime ∅
               [Sample.chat "a"; Sample.chat "b"]).1 []).2.
Proof.
  apply (@dedup_admits_first_suppresses_later Sample.runtime ∅
           [Sample.chat "a"; Sample.chat "b"] (Sample.chat "a") []).
  vm_compute. set_solver.
Defined.

Example dedup_scenario :
  (@_deduplicate_messages Sample.runtime ∅
     [Sample.chat "a"; Sample.chat "b"; Sample.chat "a"]).2
  = [Sample.chat "a"; Sample.chat "b"].
Proof. vm_compute. reflexivity. Qed.

(** ** The size cap of the cache *)

Lemma chat_ids (ids : list string) : map id (Sample.chat <$> ids) = ids.
Proof. induction ids as [|i ids IH]; simpl; [done | f_equal; exact IH]. Qed.

Lemma set_to_list_length `{PyBuiltins} (s : gset string) :
  length (set_to_list s) = size s.
Proof. by rewrite (set_to_list_perm s). Qed.

Lemma trim_size `{PyBuiltins} (seen : gset string) :
  8000 <= Z.of_nat (size seen) -> Z.of_nat (size (trim seen)) = 8000.
Proof.
  intros Hbig. unfold trim, last_n. rewrite size_list_to_set.
  - rewrite length_drop, set_to_list_length. lia.
  - eapply sublist_NoDup; [apply set_to_list_NoDup | apply sublist_drop].
Qed.

(** The bounds that do hold: a cache within the cap stays within the cap,
    and a trim leaves exactly 8,000 ids. *)
Lemma remember_size `{PyBuiltins} (seen : gset string) (i : string) :
  Z.of_nat (size seen) <= 10000 ->
  Z.of_nat (size (remember seen i)) <= 10000 /\
  (10000 < Z.of_nat (size ({[ i ]} ∪ seen)) ->
   Z.of_nat (size (remember seen i)) = 8000).
Proof.
  intros Hcap. unfold remember.
  destruct (Z.ltb_spec 10000 (Z.of_nat (size ({[i]} ∪ seen)))) as [Hbig|Hok].
  - rewrite trim_size by lia. split; [lia | done].
  - split; [done | lia].
Qed.

(** Feeding the ids of a set of 10,001 in the reverse of its iteration
    order: the last id fed overflows the cap, and the trim keeps the tail of
    the iteration order. *)
Lemma overflow_trim `{PyBuiltins} (ids : gset string) :
  Z.of_nat (size ids) = 10001 ->
  (_deduplicate_messages ∅ (Sample.chat <$> reverse (set_to_list ids))).1
  = list_to_set (drop (Z.to_nat 2001) (set_to_list ids)).
Proof.
  intros Hsize.
  pose proof (set_to_list_length ids) as Hlen.
  pose proof (set_to_list_NoDup ids) as Hnd.
  assert (forall c, c ∈ set_to_list ids <-> c ∈ ids) as Hmem
    by (intros c; apply set_to_list_elem).
  assert (trim ids = list_to_set (drop (Z.to_nat 2001) (set_to_list ids)))
    as Htrim.
  { unfold trim, last_n. do 2 f_equal. lia. }
  destruct (set_to_list ids) as [|x rest] eqn:HL; [simpl in Hlen; lia|].
  rewrite <- Htrim. clear Htrim.
  apply NoDup_cons in Hnd as [Hx Hrest]. simpl in Hlen.
  rewrite reverse_cons, fmap_app, dedup_app.
  destruct (dedup_no_trim ∅ (Sample.chat <$> reverse rest)) as (Hc & _ & _).
  { rewrite chat_ids.
    assert (size (∅ ∪ list_to_set (reverse rest) : gset string)
            <= size (list_to_set rest : gset string))%nat
      by (apply subseteq_size; set_solver).
    rewrite size_list_to_set in *; [lia | done]. }
  rewrite Hc, chat_ids. cbn [fst snd fmap list_fmap _deduplicate_messages].
  destruct (decide (id (Sample.chat x) ∈ ∅ ∪ list_to_set (reverse rest)))
    as [Hin|_].
  { simpl in Hin. set_solver. }
  simpl.
  unfold remember.
  assert ({[x]} ∪ (∅ ∪ list_to_set (reverse rest)) = ids) as ->.
  { apply set_eq. intros c. rewrite <- Hmem. set_solver. }
  destruct (Z.ltb_spec 10000 (Z.of_nat (size ids))); [done | lia].
Qed.

(** C5, where the code departs from the claim. Whatever order the runtime
    iterates a set in, there is a run of 10,001 messages with distinct ids
    after which the cache holds 8,000 ids, among them the id of the oldest
    message, but not the id of the newest one: the trim keeps the tail of
    the set's iteration order, not the most recent entries. The newest
    message, polled again, is admitted a second time. *)
Theorem trim_keeps_iteration_tail_not_recent `{PyBuiltins} :
  exists (messages : list ChatMessage) (oldest newest : ChatMessage),
    Z.of_nat (length messages) = 10001 /\
    NoDup (map id messages) /\
    head messages = Some oldest /\
    last messages = Some newest /\
    (let cache := (_deduplicate_messages ∅ messages).1 in
     Z.of_nat (size cache) = 8000 /\
     id oldest ∈ cache /\
     (id newest ∉ cache) /\
     (_deduplicate_messages cache [newest]).2 = [newest]).
Proof.
  set (names := pretty <$> seq 0 (Z.to_nat 10001)).
  assert (NoDup names) as Hnames.
  { apply NoDup_fmap; [apply _ | apply NoDup_seq]. }
  assert (length names = Z.to_nat 10001) as Hcount.
  { unfold names. by rewrite length_fmap, length_seq. }
  set (ids := list_to_set names : gset string).
  assert (Z.of_nat (size ids) = 10001) as Hsize.
  { unfold ids. rewrite size_list_to_set by done. lia. }
  clearbody ids. clear names Hnames Hcount.
  pose proof (overflow_trim ids Hsize) as Hcache.
  pose proof (set_to_list_length ids) as Hlen.
  pose proof (set_to_list_NoDup ids) as Hnd.
  destruct (set_to_list ids) as [|x rest] eqn:HL; [simpl in Hlen; lia|].
  simpl in Hlen.
  assert (exists y, last (x :: rest) = Some y) as [y Hy].
  { destruct (last (x :: rest)) eqn:E; [by eexists|].
    by apply last_None in E. }
  exists (Sample.chat <$> reverse (x :: rest)), (Sample.chat y),
    (Sample.chat x).
  assert (drop (Z.to_nat 2001) (x :: rest) = drop (Z.to_nat 2000) rest)
    as Hdrop.
  { replace (Z.to_nat 2001) with (S (Z.to_nat 2000)) by lia. done. }
  split. { rewrite length_fmap, length_reverse. simpl. lia. }
  split. { rewrite chat_ids. by rewrite reverse_Permutation. }
  split.
  { rewrite <- head_reverse in Hy.
    destruct (reverse (x :: rest)); simplify_eq/=; done. }
  split. { by rewrite fmap_last, last_reverse. }
  cbv zeta. rewrite Hcache, Hdrop.
  assert (NoDup (drop (Z.to_nat 2000) rest)) as Hnd'.
  { apply NoDup_cons in Hnd as [_ Hr].
    eapply sublist_NoDup; [exact Hr | apply sublist_drop]. }
  assert (x ∉ drop (Z.to_nat 2000) rest) as Hx.
  { apply NoDup_cons in Hnd as [Hx _]. intros Hin. apply Hx.
    eapply elem_of_sublist; [exact Hin | apply sublist_drop]. }
  split. { rewrite size_list_to_set by done. rewrite length_drop. lia. }
  split.
  { change (id (Sample.chat y)) with y.
    apply elem_of_list_to_set. rewrite <- Hdrop.
    rewrite last_lookup in Hy.
    apply (list_elem_of_lookup_2 _
             (length (x :: rest) - 1 - Z.to_nat 2001)%nat).
    rewrite lookup_drop, <- Hy. f_equal. cbn [length]. lia. }
  change (id (Sample.chat x)) with x.
  split. { by rewrite elem_of_list_to_set. }
  cbn [_deduplicate_messages]. change (id (Sample.chat x)) with x.
  destruct (decide (x ∈ list_to_set (drop (Z.to_nat 2000) rest)))
    as [Hin|_]; [|done].
  by apply elem_of_list_to_set in Hin.
Qed.

(** ** Processing a batch *)

Import MonitorV2.

Section Batch.

Context `{PyBuiltins} {DB : Type}.
Variable insert : DB -> MessageRecord -> DB * option Z.

Lemma process_message_submits (self : MultiSourceMonitor) (now : Z)
    (msg : ChatMessage) :
  submitted (_process_message insert self now msg).1.2
    = [expected_record (keyword_filter self) msg] /\
  keyword_filter (_process_message insert self now msg).1.1.1
    = keyword_filter self.
Proof.
  unfold _process_message, expected_record.
  set (found := match keyword_filter self with
                | Some kf => check kf (Some (content msg))
                | None => None
                end).
  assert (forall msg' : ChatMessage,
             channel msg' = channel msg -> content msg' = content msg ->
             timestamp msg' = timestamp msg ->
             to_record msg' found = to_record msg found) as Hrec.
  { intros msg' Hc Ht Hs. unfold to_record. by rewrite Hc, Ht, Hs. }
  rewrite (Hrec (if truthy_opt found then _ else msg))
    by (by destruct (truthy_opt found)).
  destruct (insert (db self) (to_record msg found)) as [db' [row|]]; simpl.
  - split; [|done]. destruct (truthy_opt found); simpl; [|done].
    unfold _send_notification. by destruct (notification_system _).
  - done.
Qed.

Lemma submitted_app (a b : list Event) :
  submitted (a ++ b) = submitted a ++ submitted b.
Proof.
  induction a as [|e a IH]; simpl; [done|]. destruct e; simpl; by rewrite ?IH.
Qed.

Lemma process_batch_submits (self : MultiSourceMonitor) (now : Z)
    (messages : list ChatMessage) :
  submitted (process_batch insert self now messages).2
    = map (expected_record (keyword_filter self)) messages /\
  keyword_filter (process_batch insert self now messages).1
    = keyword_filter self.
Proof.
  revert self. induction messages as [|msg rest IH]; intros self; simpl;
    [done|].
  destruct (process_message_submits self now msg) as [Hs Hk].
  destruct (_process_message insert self now msg) as [[[self' msg'] ev] ok].
  simpl in *. destruct (IH self') as [IHs IHk].
  destruct (process_batch insert self' now rest) as [self'' ev']. simpl in *.
  by rewrite submitted_app, Hs, IHs, IHk, Hk.
Qed.

End Batch.



Example batch_scenario :
  (@process_batch _ Sample.insert_message Sample.runtime Sample.monitor 0
     [Sample.said "1" "refund please"; Sample.said "2" "corrupt";
      Sample.said "3" "REFUND now"]).2
  = let r1 := mkMessageRecord None "win" 0 "refund please" "refund" None 0 in
    let r2 := mkMessageRecord None "win" 0 "corrupt" "(未匹配)" None 0 in
    let r3 := mkMessageRecord None "win" 0 "REFUND now" "refund" None 0 in
    [ Stored r1 1; Broadcast r1;
      NotificationTriggered
        (mkNotificationMessage "关键字匹配: refund" "refund please" NORMAL
           "refund" "win" 0);
      StoreFailed r2;
      Stored r3 2; Broadcast r3;
      NotificationTriggered
        (mkNotificationMessage "关键字匹配: refund" "REFUND now" NORMAL
           "refund" "win" 0) ].
Proof. vm_compute. reflexivity. Qed.

(** ** Polling after a failure *)




(** The poll of a source polled every five seconds raises at 10 s and the
    exception is logged. The visit at 12 s does nothing, the visit at 15 s
    polls again and the waiting message is processed; the status of the
    source shows no error in between. *)
Example raised_poll_scenario :
  let raising := mkSourceClass (fun _ _ => true) (fun _ _ => PollRaised) in
  let waiting :=
    @screen_source Sample.runtime true
      (Screen.Parsed [Sample.said "1" "refund please"]) in
  let v1 :=
    @visit _ Sample.insert_message Sample.runtime Sample.monitor raising
      Sample.wx 10000000 in
  let v2 :=
    @visit _ Sample.insert_message Sample.runtime v1.1.1 waiting v1.1.2
      12000000 in
  let v3 :=
    @visit _ Sample.insert_message Sample.runtime v2.1.1 waiting v2.1.2
      15000000 in
  v1.2 = [PollRaisedLogged "wx"] /\
  v1.1.2 = Sample.wx /\
  _error_count v1.1.2 = 0 /\
  v2.2 = [] /\
  _last_poll_time v3.1.2 = Some 15000000 /\
  submitted v3.2
  = [mkMessageRecord None "win" 0 "refund please" "refund" None 0].
Proof. vm_compute. repeat split; congruence. Qed.

(** ** A failure that the source records itself *)

Lemma failed_poll_status `{PyBuiltins} (source : BaseMessageSource) (t0 : Z)
    (failure : Screen.Capture) :
  failure = Screen.NoScreenshot \/ (exists e, failure = Screen.Failed e) ->
  let failed := (Screen.poll source t0 failure).1 in
  _error_count failed = _error_count source + 1 /\
  truthy_opt (_last_error failed) = true /\
  _last_poll_time failed = Some t0 /\
  enabled failed = enabled source /\
  name failed = name source /\
  (Screen.poll source t0 failure).2 = [].
Proof.
  intros [->|[e ->]]; simpl; repeat split.
  unfold error_or_unknown. by destruct e.
Qed.

(** X22. The screen source catches the errors of its own [poll()] and
    records them: a failed poll at clock reading [t0] (no screenshot, or an
    exception inside [poll]) raises the error count and sets the last error
    and the last poll time. From then on, every [_poll_source] on that
    source at a reading less than five minutes after [t0] skips it:
    [poll()] is not called, nothing is processed, and the source is left as
    it is, however short its poll interval; [run] still visits the source
    whenever its interval has elapsed and notes the visit. The first
    [_poll_source] at least five minutes after [t0] polls again (the
    source being enabled and its window found). The skip period has a
    fixed length; it does not grow with repeated failures. *)
Theorem failed_poll_skipped_for_five_minutes `{PyBuiltins} {DB : Type}
    (insert : DB -> MessageRecord -> DB * option Z)
    (self : MultiSourceMonitor) (source : BaseMessageSource) (t0 : Z)
    (failure : Screen.Capture) :
  failure = Screen.NoScreenshot \/ (exists e, failure = Screen.Failed e) ->
  let failed := (Screen.poll source t0 failure).1 in
  (_error_count failed = _error_count source + 1 /\
   truthy_opt (_last_error failed) = true /\
   _last_poll_time failed = Some t0) /\
  (forall (now : Z) (window_found : bool) (capture : Screen.Capture),
      now - t0 < five_minutes ->
      _poll_source insert self (screen_source window_found capture) failed now
      = (self, failed, [SourceSkipped (name failed)])) /\
  (forall (now : Z) (window_found : bool) (capture : Screen.Capture),
      now - t0 < five_minutes ->
      poll_interval failed * second
        <= now - default 0 (_source_last_poll self !! name failed) ->
      visit insert self (screen_source window_found capture) failed now
      = (mkMonitor (db self) (keyword_filter self) (notification_system self)
           (total_messages self) (matched_messages self)
           (<[ name failed := now ]> (_source_last_poll self)),
         failed, [SourceSkipped (name failed)])) /\
  (forall (now : Z) (capture : Screen.Capture),
      five_minutes <= now - t0 ->
      enabled source = true ->
      _poll_source insert self (screen_source true capture) failed now
      = ((process_batch insert self now
            (Screen.poll failed now capture).2).1,
         (Screen.poll failed now capture).1,
         (process_batch insert self now
            (Screen.poll failed now capture).2).2)).
Proof.
  intros Hfail failed.
  destruct (failed_poll_status source t0 failure Hfail)
    as (Hcount & Herr & Htime & Hen & Hname & _).
  fold failed in Hcount, Herr, Htime, Hen, Hname.
  assert (forall now, now - t0 < five_minutes ->
                      Base.is_available failed now = false) as Hskip.
  { intros now Hnow. unfold Base.is_available.
    destruct (enabled failed); simpl; [|done]. rewrite Htime, Herr.
    by destruct (Z.ltb_spec (now - t0) five_minutes); [|lia]. }
  assert (forall now (window_found : bool) capture,
             now - t0 < five_minutes ->
             _poll_source insert self (screen_source window_found capture)
               failed now
             = (self, failed, [SourceSkipped (name failed)])) as Hps.
  { intros now w c Hnow. unfold _poll_source. simpl.
    by rewrite (Hskip now Hnow). }
  split; [done|]. split; [exact Hps|]. split.
  - intros now w c Hnow Hdue. unfold visit.
    destruct (Z.leb_spec (poll_interval failed * second)
                (now - default 0 (_source_last_poll self !! name failed)))
      as [_|Hlt]; [|lia].
    by rewrite (Hps now w c Hnow).
  - intros now c Hlate Hon. unfold _poll_source.
    assert (Base.is_available failed now = true) as Hav.
    { unfold Base.is_available. rewrite Hen, Hon, Htime, Herr. simpl.
      by destruct (Z.ltb_spec (now - t0) five_minutes); [lia|]. }
    cbn [source_is_available source_poll screen_source]. rewrite Hav.
    cbn [negb]. destruct (Screen.poll failed now c) as [s' msgs].
    cbn [fst snd]. by destruct (process_batch insert self now msgs).
Qed.

(** A source polled every five seconds whose capture failed at 10 s: the
    visit at 15 s skips it. *)
Lemma failed_poll_skipped_for_five_minutes_witness :
  let failed :=
    (@Screen.poll Sample.runtime Sample.wx 10000000
       (Screen.Failed "capture timed out")).1 in
  @_poll_source _ Sample.insert_message Sample.runtime Sample.monitor
    (@screen_source Sample.runtime true
       (Screen.Parsed [Sample.said "1" "refund please"]))
    failed 15000000
  = (Sample.monitor, failed, [SourceSkipped (name failed)]).
Proof.
  intros failed.
  apply (proj1 (proj2 (@failed_poll_skipped_for_five_minutes Sample.runtime _
                         Sample.insert_message Sample.monitor Sample.wx
                         10000000 (Screen.Failed "capture timed out")
                         (or_intror (ex_intro _ "capture timed out" eq_refl))))).
  vm_compute. reflexivity.
Defined.

(** The source is polled every 5 s. The visit at 10 s polls it and the
    capture fails; the failure is recorded. At 15 s the poll interval has
    elapsed again, the window is there and a message is waiting, but the
    visit does not call [poll()]: the source is skipped, and it is still
    skipped at 305 s. Only the visit at 310 s, five minutes after the
    failure, polls again. *)
Example recorded_failure_scenario :
  let waiting :=
    @screen_source Sample.runtime true
      (Screen.Parsed [Sample.said "1" "refund please"]) in
  let v1 :=
    @visit _ Sample.insert_message Sample.runtime Sample.monitor
      (@screen_source Sample.runtime true (Screen.Failed "capture timed out"))
      Sample.wx 10000000 in
  let v2 :=
    @visit _ Sample.insert_message Sample.runtime v1.1.1 waiting v1.1.2
      15000000 in
  let v3 :=
    @visit _ Sample.insert_message Sample.runtime v2.1.1 waiting v2.1.2
      305000000 in
  let v4 :=
    @visit _ Sample.insert_message Sample.runtime v3.1.1 waiting v3.1.2
      310000000 in
  _error_count v1.1.2 = 1 /\
  _last_poll_time v1.1.2 = Some 10000000 /\
  poll_interval v1.1.2 * second
    <= 15000000 - default 0 (_source_last_poll v1.1.1 !! "wx") /\
  v2.2 = [SourceSkipped "wx"] /\
  v2.1.2 = v1.1.2 /\
  v3.2 = [SourceSkipped "wx"] /\
  _last_poll_time v4.1.2 = Some 310000000 /\
  submitted v4.2
  = [mkMessageRecord None "win" 0 "refund please" "refund" None 0].
Proof. vm_compute. repeat split; congruence. Qed.

(** * Further properties of the modelled code *)

(** ** Rule keyword lists *)

(** X1. Edge cases of the keyword test of [_match_rules]: a rule whose
    keyword list is empty matches no message, and an enabled rule that has
    the empty string among its keywords matches every message. *)
Theorem match_rules_empty_keywords (rs : list NotificationRule)
    (r : NotificationRule) (m : NotificationMessage) :
  (Notification.keywords r = [] -> r ∉ _match_rules rs m) /\
  (r ∈ rs -> Notification.enabled r = true ->
   "" ∈ Notification.keywords r -> r ∈ _match_rules rs m).
Proof.
  rewrite match_rules_filter. split.
  - intros Hk Hin. apply list_elem_of_In, filter_In in Hin as [_ Hin].
    apply andb_true_iff in Hin as [_ Hhit].
    unfold rule_keyword_hit in Hhit. by rewrite Hk in Hhit.
  - intros Hin Hon Hk. apply list_elem_of_In, filter_In.
    split; [by apply list_elem_of_In|]. rewrite Hon. simpl.
    apply rule_keyword_hit_spec. exists "". split; [done|].
    exists "", (keyword m). done.
Qed.

Lemma match_rules_empty_keywords_witness :
  let rule := mkNotificationRule "all" [""] ["console"] NORMAL 0 true in
  rule ∈ _match_rules [Sample.refund_rule; rule] (Sample.message "spam" 0).
Proof.
  intros rule.
  apply (proj2 (match_rules_empty_keywords [Sample.refund_rule; rule] rule
                  (Sample.message "spam" 0))).
  - right. left.
  - reflexivity.
  - left.
Defined.

(** ** Match modes of the keyword filter of [monitor.py] *)

Lemma check_loop_none `{PyBuiltins} (self : Monitor.KeywordFilter)
    (text check_text : string) (kws : list string) :
  (forall k, k ∈ kws ->
             Monitor.keyword_matches self text check_text k = false) ->
  Monitor.check_loop self text check_text kws = None.
Proof.
  induction kws as [|k kws IH]; intros Hall; simpl; [done|].
  rewrite Hall by left. apply IH. intros k' Hk'. apply Hall. by right.
Qed.

Lemma check_loop_some `{PyBuiltins} (self : Monitor.KeywordFilter)
    (text check_text : string) (kws : list string) (k : string) :
  k ∈ kws -> Monitor.keyword_matches self text check_text k = true ->
  exists k', k' ∈ kws /\
             Monitor.check_loop self text check_text kws = Some k'.
Proof.
  induction kws as [|k0 kws IH]; intros Hin Hk.
  - by apply not_elem_of_nil in Hin.
  - simpl. destruct (Monitor.keyword_matches self text check_text k0) eqn:E.
    + exists k0. split; [left | done].
    + apply elem_of_cons in Hin as [->|Hin]; [congruence|].
      destruct (IH Hin Hk) as (k' & Hk' & Hc). exists k'.
      split; [by right | done].
Qed.

(** X2. A [match_mode] other than [contain], [exact] and [fuzzy] (for
    instance the spelling [contains]) makes [check] return [None] for every
    text and every keyword list. *)
Theorem check_unknown_mode_never_matches `{PyBuiltins}
    (self : Monitor.KeywordFilter) (text : option string) :
  Monitor.match_mode self <> "contain" ->
  Monitor.match_mode self <> "exact" ->
  Monitor.match_mode self <> "fuzzy" ->
  Monitor.check self text = None.
Proof.
  intros Hc He Hf. destruct text as [t|]; [|done]. unfold Monitor.check.
  destruct (negb (PyStr.truthy t)); [done|].
  apply check_loop_none. intros k _. unfold Monitor.keyword_matches.
  apply String.eqb_neq in Hc, He, Hf. by rewrite Hc, He, Hf.
Qed.

Lemma check_unknown_mode_never_matches_witness :
  @Monitor.check Sample.runtime
    (Monitor.mkKeywordFilter ["refund"] "contains" false 0.7)
    (Some "refund please") = None.
Proof.
  apply (@check_unknown_mode_never_matches Sample.runtime); simpl; congruence.
Defined.

Lemma append_empty_r (s : string) : s +:+ "" = s.
Proof.
  induction s as [|c s IH]; [done|].
  change (String c (s +:+ "") = String c s). by rewrite IH.
Qed.

Lemma contains_refl (s : string) : PyStr.contains s s = true.
Proof.
  apply contains_spec. exists "", "". symmetry. apply append_empty_r.
Qed.

Lemma check_loop_inv `{PyBuiltins} (self : Monitor.KeywordFilter)
    (text check_text : string) (kws : list string) (k : string) :
  Monitor.check_loop self text check_text kws = Some k ->
  k ∈ kws /\ Monitor.keyword_matches self text check_text k = true.
Proof.
  induction kws as [|k0 kws IH]; simpl; [done|].
  destruct (Monitor.keyword_matches self text check_text k0) eqn:E.
  - intros [= <-]. split; [left | done].
  - intros Hk. destruct (IH Hk). split; [by right | done].
Qed.

Lemma check_inv `{PyBuiltins} (self : Monitor.KeywordFilter)
    (text : option string) (k : string) :
  Monitor.check self text = Some k ->
  exists t, text = Some t /\ t <> "" /\ k ∈ Monitor.keywords self /\
            Monitor.keyword_matches self t (Monitor.fold_case self t) k = true.
Proof.
  destruct text as [[|c t]|]; simpl; try done.
  intros Hk. apply check_loop_inv in Hk as [? ?]. by exists (String c t).
Qed.

(** X3. The match modes of [monitor.py] are nested: whenever [check] finds
    a keyword in [exact] mode, the same filter in [contain] mode and in
    [fuzzy] mode also finds a keyword (possibly an earlier one of the
    list) for the same text. *)
Theorem check_exact_implies_contain_and_fuzzy `{PyBuiltins}
    (kws : list string) (cs : bool) (th : Q) (text : option string)
    (k : string) :
  Monitor.check (Monitor.mkKeywordFilter kws "exact" cs th) text = Some k ->
  (exists k', k' ∈ kws /\
     Monitor.check (Monitor.mkKeywordFilter kws "contain" cs th) text
       = Some k') /\
  (exists k', k' ∈ kws /\
     Monitor.check (Monitor.mkKeywordFilter kws "fuzzy" cs th) text
       = Some k').
Proof.
  intros Hk. apply check_inv in Hk as (t & -> & Ht & Hin & Hm).
  unfold Monitor.keyword_matches in Hm. simpl in Hm.
  destruct (String.eqb _ _) eqn:E in Hm; [|done].
  apply String.eqb_eq in E.
  assert (forall mode, Monitor.fold_case (Monitor.mkKeywordFilter kws mode cs th)
          = Monitor.fold_case (Monitor.mkKeywordFilter kws "exact" cs th))
    as Hfold by done.
  destruct t as [|c t]; [done|]. split.
  - apply (check_loop_some _ _ _ _ k Hin).
    unfold Monitor.keyword_matches.
    cbn [Monitor.match_mode String.eqb]. rewrite (Hfold "contain"), E.
    simpl. by rewrite contains_refl.
  - apply (check_loop_some _ _ _ _ k Hin).
    unfold Monitor.keyword_matches.
    cbn [Monitor.match_mode String.eqb]. rewrite (Hfold "fuzzy"), E.
    simpl. rewrite contains_refl. by destruct (Qle_bool _ _).
Qed.

Lemma check_exact_implies_contain_and_fuzzy_witness :
  exists k', k' ∈ ["fund"; "refund"] /\
    @Monitor.check Sample.runtime
      (Monitor.mkKeywordFilter ["fund"; "refund"] "contain" false 0.7)
      (Some "Refund") = Some k'.
Proof.
  apply (proj1 (@check_exact_implies_contain_and_fuzzy Sample.runtime
                  ["fund"; "refund"] false 0.7 (Some "Refund") "refund"
                  eq_refl)).
Defined.

(** X4. The keyword that [check] returns: the filter of [monitor.py]
    returns one of the configured keywords in its configured spelling; the
    filter of [monitor_v2.py], built by [__init__] without case
    sensitivity, returns the lower-cased form of a configured keyword, and
    with case sensitivity a configured keyword as it is. *)
Theorem check_returns_configured_keyword `{PyBuiltins} (text : option string)
    (k : string) :
  (forall self : Monitor.KeywordFilter,
      Monitor.check self text = Some k -> k ∈ Monitor.keywords self) /\
  (forall kws : list string,
      MonitorV2.check (MonitorV2.init kws false) text = Some k ->
      exists k0, k0 ∈ kws /\ k = str_lower k0) /\
  (forall kws : list string,
      MonitorV2.check (MonitorV2.init kws true) text = Some k -> k ∈ kws).
Proof.
  assert (forall ct l, MonitorV2.check_loop ct l = Some k -> k ∈ l) as Hloop.
  { intros ct l. induction l as [|x l IH]; simpl; [done|].
    destruct (PyStr.contains x ct); [intros [= <-]; left|].
    intros Hk. right. by apply IH. }
  split; [|split].
  - intros self Hk. by apply check_inv in Hk as (t & _ & _ & Hin & _).
  - intros kws. destruct text as [[|c t]|]; simpl; try done.
    intros Hk%Hloop. apply list_elem_of_In, in_map_iff in Hk as (k0 & <- & Hk0).
    exists k0. split; [by apply list_elem_of_In | done].
  - intros kws. destruct text as [[|c t]|]; simpl; try done. apply Hloop.
Qed.

Lemma check_returns_configured_keyword_witness :
  exists k0, k0 ∈ ["Complaint"; "Refund"] /\ "refund" = Sample.lower k0.
Proof.
  apply (proj1 (proj2 (@check_returns_configured_keyword Sample.runtime
                         (Some "REFUND now") "refund"))).
  vm_compute. reflexivity.
Defined.

(** ** The OCR-tolerant test *)

Lemma delete_char_cons (c x : Ascii.ascii) (s : string) :
  PyStr.replace (String c "") "" (String x s) =
  if Ascii.eqb c x then PyStr.replace (String c "") "" s
  else String x (PyStr.replace (String c "") "" s).
Proof.
  unfold PyStr.replace. cbn [PyStr.replace_from PyStr.startswith].
  destruct (Ascii.eqb c x); done.
Qed.

Lemma delete_char_app (c : Ascii.ascii) (a b : string) :
  PyStr.replace (String c "") "" (a +:+ b) =
  PyStr.replace (String c "") "" a +:+ PyStr.replace (String c "") "" b.
Proof.
  induction a as [|x a IH]; [done|].
  change (String x a +:+ b) with (String x (a +:+ b)).
  rewrite !delete_char_cons, IH. by destruct (Ascii.eqb c x).
Qed.

Lemma strip_blanks_app (a b : string) :
  Monitor.strip_blanks (a +:+ b)
  = Monitor.strip_blanks a +:+ Monitor.strip_blanks b.
Proof.
  unfold Monitor.strip_blanks, Monitor.LF.
  by rewrite !delete_char_app.
Qed.

Lemma strip_blanks_substring (sub s : string) :
  Substring sub s ->
  Substring (Monitor.strip_blanks sub) (Monitor.strip_blanks s).
Proof.
  intros (pre & post & ->). rewrite !strip_blanks_app.
  by exists (Monitor.strip_blanks pre), (Monitor.strip_blanks post).
Qed.

Lemma first_match_ext (P Q : string -> bool) (l : list string)
    (r : option string) :
  (forall x, P x = Q x) -> FirstMatch P l r -> FirstMatch Q l r.
Proof.
  intros Heq [l' Hall | pre k post Hpre Hk].
  - constructor. intros x Hx. rewrite <- Heq. by apply Hall.
  - constructor; [|by rewrite <- Heq].
    intros x Hx. rewrite <- Heq. by apply Hpre.
Qed.

(** X5. In [contain] mode the plain substring test of [check] is covered
    by the OCR-tolerant test: a keyword matches a text exactly when
    [_ocr_error_match] accepts it, so [check] returns the first keyword
    that [_ocr_error_match] accepts. *)
Theorem contain_mode_is_ocr_match `{PyBuiltins} (self : Monitor.KeywordFilter) :
  Monitor.match_mode self = "contain" ->
  (forall text keyword : string,
      Monitor.keyword_matches self text (Monitor.fold_case self text) keyword
      = Monitor._ocr_error_match self text keyword) /\
  (forall t : string, t <> "" ->
      FirstMatch (Monitor._ocr_error_match self t) (Monitor.keywords self)
        (Monitor.check self (Some t))).
Proof.
  intros Hmode.
  assert (forall text keyword : string,
             Monitor.keyword_matches self text (Monitor.fold_case self text)
               keyword
             = Monitor._ocr_error_match self text keyword) as Heq.
  { intros text keyword. unfold Monitor.keyword_matches. rewrite Hmode.
    cbn [String.eqb Ascii.eqb Bool.eqb].
    destruct (PyStr.contains (Monitor.fold_case self keyword)
                (Monitor.fold_case self text)) eqn:E;
      [|by destruct (Monitor._ocr_error_match self text keyword)].
    apply contains_spec, strip_blanks_substring, contains_spec in E.
    unfold Monitor._ocr_error_match. cbv zeta. by rewrite E. }
  split; [exact Heq|].
  intros t Ht. destruct t as [|c t]; [done|].
  apply (first_match_ext _ _ _ _ (Heq (String c t))).
  apply monitor_check_loop_first.
Qed.

Lemma contain_mode_is_ocr_match_witness :
  FirstMatch
    (@Monitor._ocr_error_match Sample.runtime
       (Monitor.mkKeywordFilter ["投诉"; "退款"] "contain" false 0.7)
       "我要退 欵")
    ["投诉"; "退款"]
    (@Monitor.check Sample.runtime
       (Monitor.mkKeywordFilter ["投诉"; "退款"] "contain" false 0.7)
       (Some "我要退 欵")).
Proof.
  apply (proj2 (@contain_mode_is_ocr_match Sample.runtime
                  (Monitor.mkKeywordFilter ["投诉"; "退款"] "contain" false 0.7)
                  eq_refl)).
  discriminate.
Defined.

(** ** The result map of [notify] *)

Lemma schedule_sound (chans : gmap string NotificationChannel)
    (names : list string) (res : gmap string bool) :
  (forall task, task ∈ (schedule chans names res).1 ->
                chans !! task.1 = Some task.2 /\
                Notification.is_available task.2 = true) /\
  (forall c, (schedule chans names res).2 !! c =
             if decide (c ∈ names /\ channel_ready chans c = false)
             then Some false else res !! c).
Proof.
  revert res. induction names as [|n names IH]; intros res; cbn [schedule].
  - split; [intros t Ht; by apply not_elem_of_nil in Ht|].
    intros c. case_decide; [|done]. set_solver.
  - assert (channel_ready chans n =
            match chans !! n with
            | Some ch => Notification.is_available ch | None => false end)
      as R by done.
    assert (forall (res0 : gmap string bool) (c : string),
               channel_ready chans n = false ->
               (if decide (c ∈ names /\ channel_ready chans c = false)
                then Some false else <[n:=false]> res0 !! c)
               = if decide (c ∈ n :: names /\ channel_ready chans c = false)
                 then Some false else res0 !! c) as Hskip.
    { intros res0 c Hn. destruct (decide (n = c)) as [<-|Hne].
      - rewrite lookup_insert_eq.
        repeat case_decide; try done; destruct_and?; set_solver.
      - rewrite lookup_insert_ne by done.
        repeat case_decide; try done; destruct_and?; set_solver. }
    destruct (chans !! n) as [ch|] eqn:E.
    + destruct (Notification.is_available ch) eqn:A.
      * specialize (IH res).
        destruct (schedule chans names res) as [tasks res'].
        cbn [fst snd] in *. destruct IH as [IH1 IH2]. split.
        -- intros t [->|Ht]%elem_of_cons; [done | by apply IH1].
        -- intros c. rewrite IH2.
           repeat case_decide; try done; destruct_and?;
             destruct (decide (c = n)) as [->|?]; try congruence; set_solver.
      * destruct (IH (<[n:=false]> res)) as [IH1 IH2]. split; [done|].
        intros c. rewrite IH2. by apply Hskip.
    + destruct (IH (<[n:=false]> res)) as [IH1 IH2]. split; [done|].
      intros c. rewrite IH2. by apply Hskip.
Qed.

Lemma run_tasks_lookup (chans : gmap string NotificationChannel)
    (m : NotificationMessage) (tasks : list (string * NotificationChannel))
    (res : gmap string bool) (c : string) :
  (forall task, task ∈ tasks ->
                chans !! task.1 = Some task.2 /\ Notification.is_available task.2 = true) ->
  run_tasks m tasks res !! c =
  if decide (c ∈ map fst tasks) then Some (channel_result chans m c)
  else res !! c.
Proof.
  unfold run_tasks. revert res.
  induction tasks as [|[n ch] tasks IH]; intros res Hall;
    cbn [foldl map fst snd].
  - case_decide; [set_solver | done].
  - rewrite IH by (intros t Ht; apply Hall; by right).
    destruct (Hall (n, ch)) as [Hn Ha]; [left|]. cbn [fst snd] in Hn, Ha.
    assert (match _send_with_timeout ch m with
            | Some ok => <[n:=ok]> res
            | None => <[n:=false]> res
            end = <[n:=channel_result chans m n]> res) as ->.
    { unfold channel_result, _send_with_timeout. rewrite Hn, Ha.
      by destruct (send ch m). }
    destruct (decide (c = n)) as [->|Hne].
    + rewrite lookup_insert_eq. repeat case_decide; try done; set_solver.
    + rewrite lookup_insert_ne by done.
      repeat case_decide; try done; set_solver.
Qed.

(** X6. The map returned by [notify], once the system is enabled and the
    cooldown check lets the notification through, has one entry for every
    resolved channel name and no other entry. The entry is [True] exactly
    when the channel is configured, is available, and its [send] returned
    [True]; a channel that is missing or unavailable, a [send] that
    returned [False], a timeout and an exception all give [False]. *)
Theorem notify_results `{PyBuiltins} (self : NotificationSystem) (now : Z)
    (m : NotificationMessage) (c : string) :
  system_enabled self = true ->
  (_check_cooldown (_cooldown_records self) now (cooldown_key m)
     (resolve self m).2).1 = true ->
  results (notify self now m) !! c =
  if decide (c ∈ (resolve self m).1)
  then Some (channel_result (system_channels self) m c)
  else None.
Proof.
  intros Hon Hok. unfold notify. rewrite Hon. cbn [negb].
  destruct (resolve self m) as [chs cd]. cbn [fst snd] in *.
  destruct (_check_cooldown _ now (cooldown_key m) cd) as [ok recs].
  cbn [fst snd] in *. subst ok. cbn [negb].
  pose proof (schedule_spec (system_channels self) chs ∅) as [Ht _].
  pose proof (schedule_sound (system_channels self) chs ∅) as [Hs Hl].
  destruct (schedule (system_channels self) chs ∅) as [tasks res].
  cbn [fst snd results] in *.
  rewrite (run_tasks_lookup (system_channels self)) by done.
  rewrite Ht, Hl, lookup_empty.
  assert (c ∈ List.filter (channel_ready (system_channels self)) chs <->
          c ∈ chs /\ channel_ready (system_channels self) c = true) as Hf.
  { by rewrite list_elem_of_In, filter_In, <- list_elem_of_In. }
  destruct (channel_ready (system_channels self) c) eqn:R.
  - repeat case_decide; try done; destruct_and?; try tauto; congruence.
  - assert (channel_result (system_channels self) m c = false) as ->.
    { unfold channel_result, channel_ready in *.
      destruct (system_channels self !! c); [by rewrite R | done]. }
    repeat case_decide; try done; destruct_and?; try tauto; congruence.
Qed.

(** A rule that routes to [console] and to a channel that is not
    configured. *)
Lemma notify_results_witness :
  let self :=
    Sample.system true
      [mkNotificationRule "r" ["refund"] ["console"; "sms"] NORMAL 0 true] in
  results (@notify Sample.runtime self 0 (Sample.message "refund" 0)) !! "sms"
  = if decide ("sms" ∈ (@resolve Sample.runtime self
                           (Sample.message "refund" 0)).1)
    then Some (channel_result (system_channels self)
                 (Sample.message "refund" 0) "sms")
    else None.
Proof.
  intros self.
  apply (@notify_results Sample.runtime self 0 (Sample.message "refund" 0)
           "sms"); reflexivity.
Defined.

Example notify_results_scenario :
  results
    (@notify Sample.runtime
       (Sample.system true
          [mkNotificationRule "r" ["refund"] ["console"; "sms"] NORMAL 0 true])
       0 (Sample.message "refund" 0))
  = <[ "console" := true ]> (<[ "sms" := false ]> ∅).
Proof. vm_compute. reflexivity. Qed.

(** ** Invariants of the deduplication cache *)

Lemma dedup_size `{PyBuiltins} (seen : gset string)
    (messages : list ChatMessage) :
  Z.of_nat (size seen) <= 10000 ->
  Z.of_nat (size (_deduplicate_messages seen messages).1) <= 10000.
Proof.
  revert seen. induction messages as [|m ms IH]; intros seen Hcap;
    cbn [_deduplicate_messages]; [done|].
  case_decide; [by apply IH|].
  specialize (IH (remember seen (Message.id m))
                (proj1 (remember_size seen (Message.id m) Hcap))).
  by destruct (_deduplicate_messages (remember seen (Message.id m)) ms).
Qed.

Lemma poll_seen_size `{PyBuiltins} (self : BaseMessageSource) (now : Z)
    (capture : Screen.Capture) :
  Z.of_nat (size (_seen_message_ids self)) <= 10000 ->
  Z.of_nat (size (_seen_message_ids (Screen.poll self now capture).1))
    <= 10000.
Proof.
  intros Hcap. destruct capture as [| | |messages|e]; try done.
  destruct (poll_parsed self now messages) as [-> _]. by apply dedup_size.
Qed.

(** X7. The cache of seen ids stays within its cap: if it holds at most
    10,000 ids before [_deduplicate_messages] runs, it holds at most 10,000
    ids afterwards, whatever the batch; hence over any series of polls of a
    screen source that starts within the cap (a new source starts with
    an empty cache) the cache never holds more than 10,000 ids between
    polls. *)
Theorem seen_ids_within_cap `{PyBuiltins} (self : BaseMessageSource) :
  Z.of_nat (size (_seen_message_ids self)) <= 10000 ->
  (forall messages : list ChatMessage,
      Z.of_nat
        (size (_deduplicate_messages (_seen_message_ids self) messages).1)
        <= 10000) /\
  (forall calls : list (Z * Screen.Capture),
      Z.of_nat (size (_seen_message_ids (poll_all self calls).1)) <= 10000).
Proof.
  intros Hcap. split; [intros messages; by apply dedup_size|].
  intros calls. revert self Hcap.
  induction calls as [|[now c] calls IH]; intros self Hcap;
    cbn [poll_all fst snd]; [done|].
  pose proof (poll_seen_size self now c Hcap) as Hnext.
  destruct (Screen.poll self now c) as [self1 out1]. cbn [fst] in Hnext.
  specialize (IH self1 Hnext).
  by destruct (poll_all self1 calls).
Qed.

Lemma seen_ids_within_cap_witness :
  Z.of_nat
    (size (_seen_message_ids
             (@poll_all Sample.runtime Sample.wx
                [(0, Screen.Parsed [Sample.chat "a"; Sample.chat "b"]);
                 (5000000, Screen.Parsed [Sample.chat "c"])]).1)) <= 10000.
Proof.
  apply (proj2 (@seen_ids_within_cap Sample.runtime Sample.wx
                  ltac:(vm_compute; congruence))).
Defined.

Lemma dedup_sublist `{PyBuiltins} (seen : gset string)
    (messages : list ChatMessage) :
  sublist (_deduplicate_messages seen messages).2 messages.
Proof.
  revert seen. induction messages as [|m ms IH]; intros seen;
    cbn [_deduplicate_messages]; [done|].
  case_decide; [by apply sublist_cons|].
  specialize (IH (remember seen (Message.id m))).
  destruct (_deduplicate_messages (remember seen (Message.id m)) ms).
  by apply sublist_skip.
Qed.

(** X8. What [_deduplicate_messages] returns is a sub-sequence of the
    batch: messages are only dropped, never reordered, repeated or
    invented. It returns nothing exactly when the id of every message of
    the batch is already in the cache, and in that case the cache is left
    as it was. *)
Theorem dedup_returns_subsequence `{PyBuiltins} (seen : gset string)
    (messages : list ChatMessage) :
  sublist (_deduplicate_messages seen messages).2 messages /\
  ((_deduplicate_messages seen messages).2 = [] <->
   forall x, x ∈ messages -> Message.id x ∈ seen) /\
  ((_deduplicate_messages seen messages).2 = [] ->
   (_deduplicate_messages seen messages).1 = seen).
Proof.
  split; [apply dedup_sublist|].
  assert ((_deduplicate_messages seen messages).2 = [] ->
          forall x, x ∈ messages -> Message.id x ∈ seen) as Hall.
  { induction messages as [|m ms IH]; cbn [_deduplicate_messages].
    - intros _ x Hx. by apply not_elem_of_nil in Hx.
    - case_decide as Hin.
      + intros Hnil x [->|Hx]%elem_of_cons; [done | by apply IH].
      + by destruct (_deduplicate_messages (remember seen (Message.id m)) ms). }
  split; [split; [exact Hall|]|].
  - intros Hs. by rewrite dedup_all_seen.
  - intros Hnil. by rewrite dedup_all_seen by (by apply Hall).
Qed.

Lemma dedup_returns_subsequence_witness :
  (@_deduplicate_messages Sample.runtime {[ "a" ]}
     [Sample.chat "a"; Sample.chat "a"]).1 = {[ "a" ]}.
Proof.
  apply (proj2 (proj2 (@dedup_returns_subsequence Sample.runtime {[ "a" ]}
                         [Sample.chat "a"; Sample.chat "a"]))).
  vm_compute. reflexivity.
Defined.

(** ** Status of a source over a series of polls *)

Lemma poll_counters `{PyBuiltins} (self : BaseMessageSource) (now : Z)
    (capture : Screen.Capture) :
  let r := Screen.poll self now capture in
  _error_count r.1
    = _error_count self + (if is_failure capture then 1 else 0) /\
  _message_count r.1 = _message_count self + Z.of_nat (length r.2) /\
  Base.name r.1 = Base.name self /\ Base.enabled r.1 = Base.enabled self /\
  poll_interval r.1 = poll_interval self /\
  _last_poll_time r.1 = Some now /\
  truthy_opt (_last_error r.1) = is_failure capture.
Proof.
  destruct capture as [| | |messages|e]; cbn [Screen.poll is_failure];
    try (cbn; repeat split; lia).
  - destruct (_deduplicate_messages (_seen_message_ids self) messages).
    cbn. repeat split; lia.
  - cbn. repeat split; try lia. unfold error_or_unknown. by destruct e.
Qed.

(** X9. The counters of a source add up over any series of polls: the
    error count grows by the number of polls that failed (no screenshot,
    or an exception inside [poll]), and the message count grows by the
    number of messages the polls returned; name, enabled flag and poll
    interval do not change. *)
Theorem poll_counters_add_up `{PyBuiltins} (self : BaseMessageSource)
    (calls : list (Z * Screen.Capture)) :
  _error_count (poll_all self calls).1
    = _error_count self
      + Z.of_nat (length (List.filter (fun call => is_failure call.2) calls)) /\
  _message_count (poll_all self calls).1
    = _message_count self + Z.of_nat (length (poll_all self calls).2) /\
  Base.name (poll_all self calls).1 = Base.name self /\
  Base.enabled (poll_all self calls).1 = Base.enabled self /\
  poll_interval (poll_all self calls).1 = poll_interval self.
Proof.
  revert self. induction calls as [|[now c] calls IH]; intros self;
    cbn [poll_all fst snd List.filter]; [cbn; repeat split; lia|].
  destruct (poll_counters self now c) as (He & Hm & Hn & Hen & Hp & _).
  destruct (Screen.poll self now c) as [self1 out1]. cbn [fst snd] in *.
  destruct (IH self1) as (IHe & IHm & IHn & IHen & IHp).
  destruct (poll_all self1 calls) as [self2 out2]. cbn [fst snd] in *.
  rewrite IHe, IHm, IHn, IHen, IHp, He, Hm, Hn, Hen, Hp, length_app.
  destruct (is_failure c); cbn [length]; repeat split; lia.
Qed.

(** X10. Whether a source counts as available depends only on its enabled
    flag and on its most recent poll: after any non-empty series of polls,
    the source is available at a reading [now] exactly when it is enabled
    and the last poll either succeeded or lies at least five minutes
    back. Earlier failures leave no trace in the availability. *)
Theorem availability_follows_last_poll `{PyBuiltins}
    (self : BaseMessageSource) (calls : list (Z * Screen.Capture))
    (t : Z) (last : Screen.Capture) (now : Z) :
  Base.is_available (poll_all self (calls ++ [(t, last)])).1 now
  = Base.enabled self
    && (negb (is_failure last) || (five_minutes <=? now - t)).
Proof.
  revert self. induction calls as [|[t0 c] calls IH]; intros self.
  - cbn [app poll_all fst snd].
    destruct (poll_counters self t last) as (_ & _ & _ & Hen & _ & Ht & Hl).
    destruct (Screen.poll self t last) as [self1 out1]. cbn [fst snd] in *.
    unfold Base.is_available. rewrite Hen, Ht, Hl.
    destruct (Base.enabled self), (is_failure last); cbn; try done.
    rewrite Z.leb_antisym. by destruct (now - t <? five_minutes).
  - cbn [app poll_all fst snd].
    destruct (poll_counters self t0 c) as (_ & _ & _ & Hen & _).
    destruct (Screen.poll self t0 c) as [self1 out1]. cbn [fst snd] in *.
    specialize (IH self1).
    destruct (poll_all self1 (calls ++ [(t, last)])) as [self2 out2].
    cbn [fst] in *. by rewrite IH, Hen.
Qed.

(** ** Statistics and notifications of a batch *)

Section BatchEffects.

Context `{PyBuiltins} {DB : Type}.
Variable insert : DB -> MessageRecord -> DB * option Z.

(** The events of one [_process_message] and the monitor afterwards. *)
Lemma process_message_shape (self : MultiSourceMonitor) (now : Z)
    (msg : ChatMessage) :
  let r := _process_message insert self now msg in
  let record := expected_record (keyword_filter self) msg in
  let hit := is_hit (keyword_filter self) msg in
  keyword_filter r.1.1.1 = keyword_filter self /\
  notification_system r.1.1.1 = notification_system self /\
  _source_last_poll r.1.1.1 = _source_last_poll self /\
  matched_messages r.1.1.1
    = matched_messages self + (if hit then 1 else 0) /\
  ((r.1.2 = [StoreFailed record] /\
    total_messages r.1.1.1 = total_messages self)
   \/ exists row,
       total_messages r.1.1.1 = total_messages self + 1 /\
       r.1.2 = [Stored record row; Broadcast record]
                 ++ if hit && notification_system self
                    then [NotificationTriggered
                            (mkNotificationMessage
                               ("关键字匹配: " +:+ matched_keyword record)
                               (message_text record) NORMAL
                               (matched_keyword record) (window_title record)
                               now)]
                    else []).
Proof.
  unfold _process_message, expected_record, is_hit, found_keyword.
  set (found := match keyword_filter self with
                | Some kf => check kf (Some (Message.content msg))
                | None => None
                end).
  assert (forall msg' : ChatMessage,
             Message.channel msg' = Message.channel msg ->
             Message.content msg' = Message.content msg ->
             Message.timestamp msg' = Message.timestamp msg ->
             to_record msg' found = to_record msg found) as Hrec.
  { intros msg' Hc Ht Hs. unfold to_record. by rewrite Hc, Ht, Hs. }
  cbv zeta. rewrite (Hrec (if truthy_opt found then _ else msg))
    by (by destruct (truthy_opt found)).
  destruct (insert (db self) (to_record msg found)) as [db' [row|]];
    cbn [fst snd keyword_filter notification_system _source_last_poll
         matched_messages total_messages].
  - do 3 (split; [done|]).
    split; [destruct (truthy_opt found); lia|].
    right. exists row. split; [done|].
    unfold _send_notification. cbn [notification_system].
    by destruct (truthy_opt found), (notification_system self).
  - do 3 (split; [done|]).
    split; [destruct (truthy_opt found); lia|]. by left.
Qed.

Lemma stored_count_app (a b : list Event) :
  stored_count (a ++ b) = (stored_count a + stored_count b)%nat.
Proof.
  induction a as [|e a IH]; [done|]. destruct e; cbn; by rewrite ?IH.
Qed.

Lemma process_batch_stats (self : MultiSourceMonitor) (now : Z)
    (messages : list ChatMessage) :
  let r := process_batch insert self now messages in
  total_messages r.1 = total_messages self + Z.of_nat (stored_count r.2) /\
  matched_messages r.1
    = matched_messages self
      + Z.of_nat (length (List.filter (is_hit (keyword_filter self)) messages)) /\
  (stored_count r.2 <= length messages)%nat /\
  keyword_filter r.1 = keyword_filter self /\
  notification_system r.1 = notification_system self /\
  _source_last_poll r.1 = _source_last_poll self.
Proof.
  revert self. induction messages as [|msg rest IH]; intros self;
    cbn [process_batch List.filter]; [cbn; repeat split; lia|].
  destruct (process_message_shape self now msg)
    as (Hk & Hn & Hl & Hm & Hev).
  destruct (_process_message insert self now msg) as [[[self' msg'] ev] ok].
  cbn [fst snd] in *. destruct (IH self') as (IHt & IHm & IHc & IHk & IHn & IHl).
  destruct (process_batch insert self' now rest) as [self'' ev'].
  cbn [fst snd] in *. rewrite stored_count_app, IHt, IHm, IHk, IHn, IHl, Hk, Hm.
  destruct (is_hit (keyword_filter self) msg);
    destruct Hev as [[-> ->]|(row & -> & ->)];
    try destruct (_ && _); cbn; repeat split; try done; lia.
Qed.

Lemma process_batch_notifications (self : MultiSourceMonitor) (now : Z)
    (messages : list ChatMessage) (n : NotificationMessage) :
  NotificationTriggered n ∈ (process_batch insert self now messages).2 ->
  notification_system self = true /\
  exists (msg : ChatMessage) (row : Z),
    msg ∈ messages /\
    Stored (expected_record (keyword_filter self) msg) row
      ∈ (process_batch insert self now messages).2 /\
    found_keyword (keyword_filter self) msg = Some (Notification.keyword n) /\
    Notification.keyword n <> "" /\
    Notification.source n = Message.channel msg /\
    Notification.content n = Message.content msg.
Proof.
  revert self. induction messages as [|msg rest IH]; intros self;
    cbn [process_batch].
  { intros Hn. by apply not_elem_of_nil in Hn. }
  destruct (process_message_shape self now msg)
    as (Hk & Hns & _ & _ & Hev).
  destruct (_process_message insert self now msg) as [[[self' msg'] ev] ok].
  cbn [fst snd] in *. specialize (IH self').
  destruct (process_batch insert self' now rest) as [self'' ev'].
  cbn [fst snd] in *. intros [Hin|Hin]%elem_of_app.
  - destruct Hev as [[-> _]|(row & _ & ->)].
    { by apply list_elem_of_singleton in Hin. }
    apply elem_of_cons in Hin as [?|Hin]; [done|].
    apply elem_of_cons in Hin as [?|Hin]; [done|].
    destruct (is_hit (keyword_filter self) msg) eqn:Hhit;
      [|by apply not_elem_of_nil in Hin].
    destruct (notification_system self) eqn:Hon;
      [|by apply not_elem_of_nil in Hin].
    clear IH. apply list_elem_of_singleton in Hin. injection Hin as ->.
    split; [done|]. exists msg, row. split; [left|].
    split; [apply elem_of_app; left; left|].
    cbn [Notification.keyword Notification.source Notification.content].
    unfold expected_record, to_record.
    cbn [matched_keyword window_title message_text].
    unfold is_hit in Hhit.
    change (found_keyword (keyword_filter self) msg
            = Some (keyword_or_unmatched
                      (found_keyword (keyword_filter self) msg)) /\
            keyword_or_unmatched (found_keyword (keyword_filter self) msg)
              <> "" /\
            Message.channel msg = Message.channel msg /\
            Message.content msg = Message.content msg).
    by destruct (found_keyword (keyword_filter self) msg) as [[|c k]|].
  - destruct (IH Hin) as (Hon & m & row & Hm & Hs & Hf & Hne & Hsrc & Hc).
    rewrite Hk in *. rewrite Hns in Hon. split; [done|].
    exists m, row. split; [by right|]. split; [|done].
    apply elem_of_app. by right.
Qed.

End BatchEffects.

(** X11. The statistics of the monitor after a batch: [total_messages]
    grows by the number of records that were stored, [matched_messages]
    grows by the number of messages in which the filter found a non-empty
    keyword, whether or not their record could be stored (the match is
    counted before the insert). Neither the filter nor the schedule of
    the sources is touched. *)
Theorem batch_statistics `{PyBuiltins} {DB : Type}
    (insert : DB -> MessageRecord -> DB * option Z)
    (self : MultiSourceMonitor) (now : Z) (messages : list ChatMessage) :
  total_messages (process_batch insert self now messages).1
    = total_messages self
      + Z.of_nat (stored_count (process_batch insert self now messages).2) /\
  matched_messages (process_batch insert self now messages).1
    = matched_messages self
      + Z.of_nat (length (List.filter (is_hit (keyword_filter self)) messages)) /\
  (stored_count (process_batch insert self now messages).2
     <= length messages)%nat /\
  keyword_filter (process_batch insert self now messages).1
    = keyword_filter self /\
  _source_last_poll (process_batch insert self now messages).1
    = _source_last_poll self.
Proof.
  destruct (process_batch_stats insert self now messages)
    as (? & ? & ? & ? & _ & ?).
  done.
Qed.

(** A matching message whose record cannot be stored is counted as a
    match and not as a message. *)
Example batch_statistics_scenario :
  let r :=
    @process_batch _ Sample.insert_message Sample.runtime
      (mkMonitor [] (Some (@MonitorV2.init Sample.runtime ["corrupt"] false))
         true 0 0 ∅)
      0 [Sample.said "1" "corrupt"] in
  total_messages r.1 = 0 /\ matched_messages r.1 = 1.
Proof. vm_compute. done. Qed.

(** X12. A notification is triggered only for a message of the batch whose
    record was stored and in which the filter found a non-empty keyword,
    and only when the monitor has a notification system. Its keyword is
    the keyword found, its source is the channel of the message and its
    content is the text of the message. *)
Theorem notifications_only_for_stored_matches `{PyBuiltins} {DB : Type}
    (insert : DB -> MessageRecord -> DB * option Z)
    (self : MultiSourceMonitor) (now : Z) (messages : list ChatMessage)
    (n : NotificationMessage) :
  NotificationTriggered n ∈ (process_batch insert self now messages).2 ->
  notification_system self = true /\
  exists (msg : ChatMessage) (row : Z),
    msg ∈ messages /\
    Stored (expected_record (keyword_filter self) msg) row
      ∈ (process_batch insert self now messages).2 /\
    found_keyword (keyword_filter self) msg = Some (Notification.keyword n) /\
    Notification.keyword n <> "" /\
    Notification.source n = Message.channel msg /\
    Notification.content n = Message.content msg.
Proof. apply process_batch_notifications. Qed.

Lemma notifications_only_for_stored_matches_witness :
  exists (msg : ChatMessage) (row : Z),
    msg ∈ [Sample.said "1" "refund please"] /\
    Stored (@expected_record Sample.runtime (keyword_filter Sample.monitor) msg)
      row
      ∈ (@process_batch _ Sample.insert_message Sample.runtime Sample.monitor
           0 [Sample.said "1" "refund please"]).2 /\
    @found_keyword Sample.runtime (keyword_filter Sample.monitor) msg
      = Some "refund" /\
    "refund" <> "" /\ "win" = Message.channel msg /\
    "refund please" = Message.content msg.
Proof.
  apply (proj2 (@notifications_only_for_stored_matches Sample.runtime _
                  Sample.insert_message Sample.monitor 0
                  [Sample.said "1" "refund please"]
                  (mkNotificationMessage "关键字匹配: refund" "refund please"
                     NORMAL "refund" "win" 0)
                  ltac:(vm_compute; set_solver))).
Defined.

(** ** The debounce of the legacy notification manager *)

Lemma legacy_notify_cases (self : Legacy.NotificationManager) (now : Z)
    (title content : string) (dedup_key : option string) :
  let key := legacy_key (mkLegacyCall now title content dedup_key) in
  let r := Legacy.notify self now title content dedup_key in
  Legacy.dedup_interval r.1 = Legacy.dedup_interval self /\
  Legacy.notifiers r.1 = Legacy.notifiers self /\
  ((r.2 = None /\
    Legacy._recent_notifications r.1 = Legacy._recent_notifications self /\
    exists last, Legacy._recent_notifications self !! key = Some last /\
                 now - last < Legacy.dedup_interval self * 1000000)
   \/ (r.2 = Some (map (fun notifier => notifier title content)
                     (Legacy.notifiers self)) /\
       Legacy._recent_notifications r.1
         = <[ key := now ]> (Legacy._recent_notifications self) /\
       forall last, Legacy._recent_notifications self !! key = Some last ->
                    Legacy.dedup_interval self * 1000000 <= now - last)).
Proof.
  unfold Legacy.notify, legacy_key, Legacy._should_notify.
  cbn [call_key call_title call_content].
  set (key := match dedup_key with
              | Some k => k
              | None => Legacy.default_key title content
              end).
  destruct (Legacy._recent_notifications self !! key) as [last|] eqn:E.
  - destruct (Z.ltb_spec (now - last)
                (Legacy.dedup_interval self * 1000000)) as [Hin|Hout]; cbn.
    + split; [done|]. split; [done|]. left. split; [done|]. split; [done|].
      by exists last.
    + split; [done|]. split; [done|]. right. split; [done|]. split; [done|].
      by intros ? [= <-].
  - cbn. split; [done|]. split; [done|]. right. split; [done|].
    split; [done|]. done.
Qed.

Lemma legacy_floor (calls : list LegacyCall) (self : Legacy.NotificationManager)
    (k : string) (floor t : Z) :
  (exists last, Legacy._recent_notifications self !! k = Some last /\
                floor <= last) ->
  Forall (fun call => floor <= call_time call) calls ->
  (t, k) ∈ legacy_deliveries self calls ->
  Legacy.dedup_interval self * 1000000 <= t - floor.
Proof.
  revert self. induction calls as [|[tc title content dk] calls IH];
    intros self Hinv Hall Hin;
    cbn [legacy_deliveries call_time call_title call_content call_key] in Hin.
  { by apply not_elem_of_nil in Hin. }
  apply Forall_cons in Hall as [Htc Hall]. cbn [call_time] in *.
  destruct (legacy_notify_cases self tc title content dk)
    as (Hint & _ & Hcases).
  destruct Hinv as (last & Hlast & Hfloor).
  assert (exists last',
             Legacy._recent_notifications
               (Legacy.notify self tc title content dk).1 !! k = Some last' /\
             floor <= last') as Hinv'.
  { destruct Hcases as [(_ & -> & _)|(_ & -> & _)]; [by exists last|].
    destruct (decide (legacy_key (mkLegacyCall tc title content dk) = k))
      as [->|Hne].
    - exists tc. by rewrite lookup_insert_eq.
    - exists last. by rewrite lookup_insert_ne. }
  destruct Hcases as [(Hr & _ & _)|(Hr & _ & Hok)]; rewrite Hr in Hin.
  - rewrite <- Hint. by apply (IH _ Hinv' Hall).
  - apply elem_of_cons in Hin as [Heq|Hin].
    + injection Heq as Ht Hk. rewrite <- Hk in Hok.
      specialize (Hok last Hlast). lia.
    + rewrite <- Hint. by apply (IH _ Hinv' Hall).
Qed.

(** X13. The debounce of the legacy manager: over any series of [notify]
    calls whose clock readings do not decrease, two notifications that are
    let through with the same key lie at least [dedup_interval] seconds
    apart, whatever happened to other keys in between. The key is
    [dedup_key], or the title and the first 50 characters of the content
    when none is given. *)
Theorem legacy_deliveries_spaced (self : Legacy.NotificationManager)
    (calls : list LegacyCall) (i j : nat) (t1 t2 : Z) (k : string) :
  StronglySorted Z.le (map call_time calls) ->
  (i < j)%nat ->
  legacy_deliveries self calls !! i = Some (t1, k) ->
  legacy_deliveries self calls !! j = Some (t2, k) ->
  Legacy.dedup_interval self * 1000000 <= t2 - t1.
Proof.
  revert self i j. induction calls as [|[tc title content dk] calls IH];
    intros self i j Hsorted Hij Hi Hj; [done|].
  cbn [map call_time] in Hsorted. apply StronglySorted_inv in Hsorted
    as [Hsorted Hhead].
  cbn [legacy_deliveries call_time call_title call_content call_key] in Hi, Hj.
  destruct (legacy_notify_cases self tc title content dk)
    as (Hint & _ & Hcases).
  destruct Hcases as [(Hr & _ & _)|(Hr & Hrec & _)];
    rewrite Hr in Hi, Hj; rewrite <- Hint.
  - by apply (IH _ i j).
  - destruct i as [|i]; destruct j as [|j]; try lia.
    + cbn in Hi. injection Hi as Ht Hk. cbn in Hj.
      apply list_elem_of_lookup_2 in Hj. subst tc.
      apply (legacy_floor calls
               (Legacy.notify self t1 title content dk).1 k t1 t2);
        [| |done].
      * exists t1. by rewrite Hrec, Hk, lookup_insert_eq.
      * apply Forall_forall. intros c Hc.
        apply (proj1 (Forall_forall _ _) Hhead).
        apply list_elem_of_In, in_map. by apply list_elem_of_In.
    + cbn in Hi, Hj. apply (IH _ i j); [done | lia | done | done].
Qed.

(** Two alerts with the same title and text, 10 s apart, then one after
    five minutes. *)
Lemma legacy_deliveries_spaced_witness :
  let calls :=
    [mkLegacyCall 0 "alert" "refund please" None;
     mkLegacyCall 10000000 "alert" "refund please" None;
     mkLegacyCall 300000000 "alert" "refund please" None] in
  Legacy.dedup_interval (Legacy.mkManager [] 300 ∅) * 1000000
    <= 300000000 - 0.
Proof.
  intros calls.
  apply (legacy_deliveries_spaced (Legacy.mkManager [] 300 ∅) calls 0 1
           0 300000000 "alert:refund please").
  - repeat constructor; cbn; lia.
  - lia.
  - reflexivity.
  - reflexivity.
Defined.

(** ** The webhook-fed source *)

Section WebhookSource.
Context `{WeChatApi.PyConversions}.

Lemma collect_spec (self : WeChatApi.WeChatApiSource) (now : Z)
    (processed : gset string) (raws : list WeChatApi.Payload) :
  let r := WeChatApi.collect self now processed raws in
  r.1 = processed ∪ list_to_set (map Message.id r.2) /\
  NoDup (map Message.id r.2) /\
  (forall x, x ∈ r.2 -> Message.id x ∉ processed) /\
  sublist r.2
    (omap (fun raw =>
             parsed_message (WeChatApi._parse_wechat_message self now raw))
       raws).
Proof.
  revert processed. induction raws as [|raw raws IH]; intros processed;
    cbn [WeChatApi.collect omap list_omap].
  - cbn. split; [set_solver|]. split; [constructor|]. split; [|done].
    intros x Hx. by apply not_elem_of_nil in Hx.
  - destruct (WeChatApi._parse_wechat_message self now raw) as [msg| |];
      cbn [parsed_message]; [|apply IH..].
    case_decide as Hin.
    + destruct (IH processed) as (IH1 & IH2 & IH3 & IH4).
      split; [done|]. split; [done|]. split; [done|]. by apply sublist_cons.
    + destruct (IH ({[Message.id msg]} ∪ processed)) as (IH1 & IH2 & IH3 & IH4).
      destruct (WeChatApi.collect self now
                  ({[Message.id msg]} ∪ processed) raws) as [p out].
      cbn [fst snd map] in *. split; [rewrite IH1; set_solver|]. split.
      * constructor; [|done]. intros Hdup.
        apply list_elem_of_In, in_map_iff in Hdup as (x & Hid & Hx).
        apply list_elem_of_In, IH3 in Hx. set_solver.
      * split; [|by apply sublist_skip].
        intros x [->|Hx]%elem_of_cons; [done|].
        apply IH3 in Hx. set_solver.
Qed.

Lemma api_poll_spec (queues : gmap string (list WeChatApi.Payload))
    (self : WeChatApi.WeChatApiSource) (now : Z) :
  let r := WeChatApi.poll queues self now in
  let name := Base.name (WeChatApi.base self) in
  WeChatApi._processed_message_ids r.1.2
    = WeChatApi._processed_message_ids self
      ∪ list_to_set (map Message.id r.2) /\
  NoDup (map Message.id r.2) /\
  (forall x, x ∈ r.2 ->
             Message.id x ∉ WeChatApi._processed_message_ids self) /\
  sublist r.2
    (omap (fun raw =>
             parsed_message (WeChatApi._parse_wechat_message self now raw))
       (default [] (queues !! name))) /\
  Base.name (WeChatApi.base r.1.2) = name /\
  r.1.1 !! name = (fun _ => []) <$> queues !! name /\
  (forall n, n <> name -> r.1.1 !! n = queues !! n) /\
  Base._last_error (WeChatApi.base r.1.2) = None /\
  Base._message_count (WeChatApi.base r.1.2)
    = Base._message_count (WeChatApi.base self) + Z.of_nat (length r.2).
Proof.
  unfold WeChatApi.poll.
  pose proof (collect_spec self now (WeChatApi._processed_message_ids self)
                (default [] (queues !! Base.name (WeChatApi.base self))))
    as (H1 & H2 & H3 & H4).
  destruct (WeChatApi.collect self now (WeChatApi._processed_message_ids self)
              (default [] (queues !! Base.name (WeChatApi.base self))))
    as [p out].
  cbn [fst snd WeChatApi._processed_message_ids WeChatApi.base] in *.
  do 4 (split; [done|]).
  split; [by destruct out|]. split.
  { destruct (queues !! Base.name (WeChatApi.base self)) eqn:E; cbn;
      [by rewrite lookup_insert_eq | done]. }
  split.
  { intros n Hn.
    destruct (queues !! Base.name (WeChatApi.base self));
      [by rewrite lookup_insert_ne | done]. }
  split; [by destruct out|].
  destruct out; cbn; lia.
Qed.


(** X14. The webhook-fed source never returns a message id twice: over any
    series of webhook pushes and polls, the ids of all the messages
    returned by the polls are pairwise different, and none of them was in
    the set of processed ids at the start. (Its set of processed ids is
    never trimmed.) *)
Theorem api_source_never_repeats_an_id
    (queues : gmap string (list WeChatApi.Payload))
    (self : WeChatApi.WeChatApiSource) (ops : list ApiOp) :
  NoDup (map Message.id (api_run queues self ops).2) /\
  (forall x, x ∈ (api_run queues self ops).2 ->
             Message.id x ∉ WeChatApi._processed_message_ids self) /\
  WeChatApi._processed_message_ids self
    ⊆ WeChatApi._processed_message_ids (api_run queues self ops).1.2.
Proof.
  revert queues self. induction ops as [|[n raw|now] ops IH];
    intros queues self; cbn [api_run].
  - cbn. split; [constructor|]. split; [|done].
    intros x Hx. by apply not_elem_of_nil in Hx.
  - apply IH.
  - destruct (api_poll_spec queues self now) as (P1 & P2 & P3 & _).
    destruct (WeChatApi.poll queues self now) as [[queues1 self1] out1].
    cbn [fst snd] in *. destruct (IH queues1 self1) as (IH1 & IH2 & IH3).
    destruct (api_run queues1 self1 ops) as [[queues2 self2] out2].
    cbn [fst snd] in *. rewrite map_app. split; [|split].
    + apply NoDup_app. split; [done|]. split; [|done].
      intros i Hi Hi2.
      apply list_elem_of_In, in_map_iff in Hi2 as (x & <- & Hx).
      apply list_elem_of_In, IH2 in Hx. apply Hx. rewrite P1.
      apply elem_of_union. right. by apply elem_of_list_to_set.
    + intros x [Hx|Hx]%elem_of_app; [by apply P3|].
      apply IH2 in Hx. rewrite P1 in Hx. set_solver.
    + rewrite P1 in IH3. set_solver.
Qed.


End WebhookSource.

(** The same message pushed before and after a poll, a message whose
    creation time is given in milliseconds, one whose creation time is
    null, and a payload that is not an object: the last three are
    dropped. *)
Example api_source_scenario :
  map Message.id
    (@api_run Sample.conversions (WeChatApi.register ∅ "kf") Sample.kf
       [Push "kf" (Sample.pushed 7 "refund please"); PollAt 1000000;
        Push "kf" (Sample.pushed 7 "refund please");
        Push "kf"
          (Sample.pushed_at (WeChatApi.VInt 1700000000000) 9 "refund");
        Push "kf" (Sample.pushed_at WeChatApi.VNone 10 "refund");
        Push "kf" WeChatApi.NotObject;
        Push "kf" (Sample.pushed_at (WeChatApi.VStr "1700000000") 8 "thanks");
        PollAt 6000000]).2
  = ["7"; "8"].
Proof. vm_compute. reflexivity. Qed.

(** ** From the configuration to the rules and channels *)

Lemma init_rules_elem (configs : list Loading.RuleConfig)
    (r : NotificationRule) :
  r ∈ Loading._init_rules configs <->
  exists rc p,
    rc ∈ configs /\
    Loading.priority_named (default "NORMAL" (Loading.rc_priority rc)) = Some p /\
    r = mkNotificationRule
          (default "未命名规则" (Loading.rc_name rc))
          (default [] (Loading.rc_keywords rc))
          (default [] (Loading.rc_channels rc)) p
          (default 300 (Loading.rc_cooldown rc))
          (default true (Loading.rc_enabled rc)).
Proof.
  induction configs as [|rc configs IH]; cbn [Loading._init_rules].
  - split; [intros Hr; by apply not_elem_of_nil in Hr|].
    intros (rc & p & Hrc & _). by apply not_elem_of_nil in Hrc.
  - destruct (Loading.priority_named _) as [p|] eqn:E.
    + rewrite elem_of_cons, IH. split.
      * intros [->|(rc' & p' & Hin & Hp & ->)].
        -- exists rc, p. split; [left | done].
        -- exists rc', p'. split; [by right | done].
      * intros (rc' & p' & [->|Hin]%elem_of_cons & Hp & ->).
        -- left. congruence.
        -- right. by exists rc', p'.
    + rewrite IH. split.
      * intros (rc' & p' & Hin & Hp & ->). exists rc', p'.
        split; [by right | done].
      * intros (rc' & p' & [->|Hin]%elem_of_cons & Hp & ->); [congruence|].
        by exists rc', p'.
Qed.

(** X16. From the rule configuration to a match: a rule can only be
    matched if its configuration entry names a known priority (or none),
    is not switched off, and lists keywords of which one occurs in the
    keyword of the message. An entry without a [keywords] key, or with a
    misspelt priority, is never matched; no more rules are loaded than are
    configured. *)
Theorem matched_rule_comes_from_configuration
    (configs : list Loading.RuleConfig) (m : NotificationMessage)
    (r : NotificationRule) :
  (r ∈ _match_rules (Loading._init_rules configs) m ->
   exists rc kws kw,
     rc ∈ configs /\
     is_Some (Loading.priority_named
                (default "NORMAL" (Loading.rc_priority rc))) /\
     Loading.rc_enabled rc <> Some false /\
     Loading.rc_keywords rc = Some kws /\ kw ∈ kws /\
     Substring kw (Notification.keyword m) /\
     Notification.channels r = default [] (Loading.rc_channels rc) /\
     Notification.cooldown r = default 300 (Loading.rc_cooldown rc)) /\
  (length (Loading._init_rules configs) <= length configs)%nat.
Proof.
  split.
  - rewrite match_rules_filter. intros Hr.
    apply list_elem_of_In, filter_In in Hr as [Hr Hhit].
    apply list_elem_of_In, init_rules_elem in Hr as (rc & p & Hrc & Hp & ->).
    apply andb_true_iff in Hhit as [Hon Hhit]. cbn in Hon.
    apply rule_keyword_hit_spec in Hhit as (kw & Hkw & Hsub).
    cbn in Hkw. destruct (Loading.rc_keywords rc) as [kws|] eqn:Ek;
      [|by apply not_elem_of_nil in Hkw].
    exists rc, kws, kw. split; [done|]. split; [by exists p|].
    split; [by destruct (Loading.rc_enabled rc) as [[]|]|]. done.
  - induction configs as [|rc configs IH]; cbn [Loading._init_rules length];
      [done|].
    destruct (Loading.priority_named _); cbn [length]; lia.
Qed.

Lemma matched_rule_comes_from_configuration_witness :
  exists rc kws kw,
    rc ∈ [Loading.mkRuleConfig (Some "r") (Some ["refund"]) (Some ["console"])
            None None None] /\
    is_Some (Loading.priority_named
               (default "NORMAL" (Loading.rc_priority rc))) /\
    Loading.rc_enabled rc <> Some false /\
    Loading.rc_keywords rc = Some kws /\ kw ∈ kws /\
    Substring kw "refund" /\
    ["console"] = default [] (Loading.rc_channels rc) /\
    300 = default 300 (Loading.rc_cooldown rc).
Proof.
  apply (proj1 (matched_rule_comes_from_configuration
                  [Loading.mkRuleConfig (Some "r") (Some ["refund"])
                     (Some ["console"]) None None None]
                  (Sample.message "refund" 0)
                  (mkNotificationRule "r" ["refund"] ["console"] NORMAL 300
                     true))).
  vm_compute. left.
Defined.





Example incomplete_channel_scenario :
  let outside := Loading.mkOutside false true (fun _ _ => Some true) in
  let channels_config : gmap string Loading.ChannelConfig :=
    <[ "console" := Loading.mkChannelConfig None None None None None ]>
      (<[ "dingtalk" := Loading.mkChannelConfig (Some true) None None None None ]>
         ∅) in
  let r :=
    @notify Sample.runtime
      (mkSystem true (Loading._init_channels outside channels_config)
         [mkNotificationRule "r" ["refund"] ["console"; "dingtalk"]
            NORMAL 0 true] None ∅)
      0 (Sample.message "refund" 0) in
  sends r = ["console"] /\
  results r = <[ "console" := true ]> (<[ "dingtalk" := false ]> ∅).
Proof. vm_compute. done. Qed.

(** ** The scheduling loop *)

Section LoopFacts.

Context `{PyBuiltins} {DB : Type}.
Variable insert : DB -> MessageRecord -> DB * option Z.

Lemma heartbeats_app (a b : list Loop.LoopEvent) :
  heartbeats (a ++ b) = (heartbeats a + heartbeats b)%nat.
Proof.
  induction a as [|e a IH]; [done|]. destruct e; cbn; by rewrite ?IH.
Qed.

Lemma heartbeats_source_events (events : list Event) :
  heartbeats (map Loop.SourceEvent events) = O.
Proof. induction events as [|e events IH]; [done | exact IH]. Qed.

Lemma run_iteration_counter (self : MultiSourceMonitor)
    (sources : list BaseMessageSource) (counter : Z)
    (outside : nat -> SourceClass * Z) :
  let r := Loop.run_iteration insert self sources counter outside in
  (if 300 <=? counter + 1
   then r.1.2 = 0 /\ heartbeats r.2 = 1%nat
   else r.1.2 = counter + 1 /\ heartbeats r.2 = O).
Proof.
  unfold Loop.run_iteration.
  destruct (Loop.visit_sources insert self 0 sources outside)
    as [[self' sources'] events].
  destruct (300 <=? counter + 1); cbn [fst snd].
  - split; [done|]. by rewrite heartbeats_app, heartbeats_source_events.
  - split; [done|]. apply heartbeats_source_events.
Qed.

Lemma run_loop_heartbeats (self : MultiSourceMonitor)
    (sources : list BaseMessageSource) (counter : Z)
    (passes : list (nat -> SourceClass * Z)) :
  0 <= counter < 300 ->
  let r := Loop.run_loop insert self sources counter passes in
  Z.of_nat (heartbeats r.2) = (counter + Z.of_nat (length passes)) `div` 300 /\
  r.1.2 = (counter + Z.of_nat (length passes)) `mod` 300.
Proof.
  revert self sources counter.
  induction passes as [|outside passes IH]; intros self sources counter Hc;
    cbn [Loop.run_loop length].
  - cbn [fst snd heartbeats]. rewrite Z.add_0_r.
    rewrite Z.div_small, Z.mod_small by lia. done.
  - pose proof (run_iteration_counter self sources counter outside) as Hit.
    destruct (Loop.run_iteration insert self sources counter outside)
      as [[[self1 sources1] counter1] events1].
    cbn [fst snd] in Hit.
    assert (0 <= counter1 < 300) as Hc1.
    { destruct (Z.leb_spec 300 (counter + 1)); lia. }
    specialize (IH self1 sources1 counter1 Hc1).
    destruct (Loop.run_loop insert self1 sources1 counter1 passes)
      as [[[self2 sources2] counter2] events2].
    cbn [fst snd] in *. rewrite heartbeats_app, Nat2Z.inj_add.
    destruct IH as [-> ->].
    destruct (Z.leb_spec 300 (counter + 1)) as [Hfull|Hless];
      destruct Hit as [-> ->].
    + assert (counter = 299) as -> by lia.
      replace (299 + Z.of_nat (S (length passes)))
        with (Z.of_nat (length passes) + 1 * 300) by lia.
      rewrite Z.div_add, Z.mod_add by lia. rewrite !Z.add_0_l.
      split; lia.
    + replace (counter + Z.of_nat (S (length passes)))
        with (counter + 1 + Z.of_nat (length passes)) by lia.
      split; lia.
Qed.

End LoopFacts.

(** X18. The heartbeat of [run]: starting with the counter at zero, after
    any number [n] of passes of the loop, whatever the sources did, the
    heartbeat has been sent exactly [n / 300] times (at the passes 300,
    600, ...), and the counter holds [n mod 300]. *)
Theorem heartbeat_every_300_passes `{PyBuiltins} {DB : Type}
    (insert : DB -> MessageRecord -> DB * option Z)
    (self : MultiSourceMonitor) (sources : list BaseMessageSource)
    (passes : list (nat -> SourceClass * Z)) :
  Z.of_nat (heartbeats (Loop.run_loop insert self sources 0 passes).2)
    = Z.of_nat (length passes) `div` 300 /\
  (Loop.run_loop insert self sources 0 passes).1.2
    = Z.of_nat (length passes) `mod` 300.
Proof.
  destruct (run_loop_heartbeats insert self sources 0 passes) as [? ?];
    [lia|]. done.
Qed.

(** X19. The schedule is kept per source name, not per source: once a
    source has been visited when due, a second source registered under the
    same name is not due at any reading less than its poll interval later,
    and its visit does nothing. In a pass of the loop the second source
    is therefore not polled. *)
Theorem sources_with_one_name_share_a_schedule `{PyBuiltins} {DB : Type}
    (insert : DB -> MessageRecord -> DB * option Z)
    (self : @MultiSourceMonitor DB) (cls1 cls2 : SourceClass)
    (s1 s2 : BaseMessageSource) (t1 t2 : Z) :
  Base.name s1 = Base.name s2 ->
  poll_interval s1 * second
    <= t1 - default 0 (_source_last_poll self !! Base.name s1) ->
  t2 - t1 < poll_interval s2 * second ->
  visit insert (visit insert self cls1 s1 t1).1.1 cls2 s2 t2
  = ((visit insert self cls1 s1 t1).1.1, s2, []).
Proof.
  intros Hname Hdue Hsoon.
  assert (_source_last_poll (visit insert self cls1 s1 t1).1.1
            !! Base.name s2 = Some t1) as Hlast.
  { unfold visit.
    destruct (Z.leb_spec (poll_interval s1 * second)
                (t1 - default 0 (_source_last_poll self !! Base.name s1)))
      as [_|?]; [|lia].
    destruct (_poll_source insert self cls1 s1 t1) as [[self' s1'] ev].
    cbn [fst snd _source_last_poll]. by rewrite Hname, lookup_insert_eq. }
  unfold visit at 1. rewrite Hlast.
  change (default 0 (Some t1)) with t1.
  destruct (Z.leb_spec (poll_interval s2 * second) (t2 - t1)); [lia | done].
Qed.

(** Two sources named [wx], visited in one pass at the same reading. *)
Lemma sources_with_one_name_share_a_schedule_witness :
  let first :=
    @visit _ Sample.insert_message Sample.runtime Sample.monitor
      (@screen_source Sample.runtime true Screen.BlankText) Sample.wx
      10000000 in
  @visit _ Sample.insert_message Sample.runtime first.1.1
    (@screen_source Sample.runtime true
       (Screen.Parsed [Sample.said "1" "refund please"]))
    Sample.wx 10000000
  = (first.1.1, Sample.wx, []).
Proof.
  intros first.
  apply (@sources_with_one_name_share_a_schedule Sample.runtime _
           Sample.insert_message Sample.monitor); vm_compute; congruence.
Defined.

(** ** Dotted keys of the configuration *)

Lemma split_on_nonempty (sep : Ascii.ascii) (s : string) :
  PyText.split_on sep s <> [].
Proof.
  induction s as [|c s IH]; cbn [PyText.split_on]; [done|].
  destruct (Ascii.eqb c sep); [done|]. by destruct (PyText.split_on sep s).
Qed.

Lemma split_on_app (sep : Ascii.ascii) (a b : string) :
  PyText.split_on sep (a +:+ String sep b)
  = PyText.split_on sep a ++ PyText.split_on sep b.
Proof.
  induction a as [|c a IH].
  - change ("" +:+ String sep b) with (String sep b).
    cbn [PyText.split_on]. by rewrite Ascii.eqb_refl.
  - change (String c a +:+ String sep b) with (String c (a +:+ String sep b)).
    cbn [PyText.split_on]. rewrite IH.
    destruct (Ascii.eqb c sep); [done|].
    pose proof (split_on_nonempty sep a).
    by destruct (PyText.split_on sep a).
Qed.

Lemma split_on_no_sep (sep : Ascii.ascii) (s : string) :
  ~ Substring (String sep "") s -> PyText.split_on sep s = [s].
Proof.
  induction s as [|c s IH]; intros Hno; cbn [PyText.split_on]; [done|].
  destruct (Ascii.eqb c sep) eqn:E.
  - apply Ascii.eqb_eq in E as ->. destruct Hno. by exists "", s.
  - rewrite IH; [done|]. intros (pre & post & ->). apply Hno.
    by exists (String c pre), post.
Qed.

Lemma walk_app (value : Config.Yaml) (keys1 keys2 : list string) :
  Config.walk value (keys1 ++ keys2)
  = Config.walk value keys1 ≫= fun v => Config.walk v keys2.
Proof.
  revert value. induction keys1 as [|k keys1 IH]; intros value; [done|].
  cbn [app Config.walk]. destruct value as [| | | | | |entries]; try done.
  destruct (entries !! k); [apply IH | done].
Qed.

(** X20. [Config.get] follows a dotted key one part at a time: looking up
    [a.b] is looking up [b] in the value found at [a], and gives the
    default as soon as a part is missing or the value reached is not a
    mapping. A key without a dot is looked up in the top-level mapping. A
    configuration that is not a mapping (null, as an empty file loads, a
    scalar or a list) gives the default for every key. *)
Theorem config_get_follows_dotted_key (config : Config.Yaml) (a b : string)
    (d : Config.Yaml) :
  Config.get config (a +:+ "." +:+ b) d
  = match Config.walk config (PyText.split_on Config.dot a) with
    | Some value => Config.get value b d
    | None => d
    end /\
  (forall (entries : gmap string Config.Yaml) (k : string),
      ~ Substring "." k ->
      Config.get (Config.YDict entries) k d = default d (entries !! k)) /\
  (forall (other : Config.Yaml) (key : string),
      (forall entries, other <> Config.YDict entries) ->
      Config.get other key d = d).
Proof.
  split; [|split].
  - unfold Config.get.
    change (a +:+ "." +:+ b) with (a +:+ String Config.dot b).
    rewrite split_on_app, walk_app.
    by destruct (Config.walk config (PyText.split_on Config.dot a)).
  - intros entries k Hk. unfold Config.get.
    rewrite (split_on_no_sep Config.dot k Hk). cbn [Config.walk].
    by destruct (entries !! k).
  - intros other key Hother. unfold Config.get.
    pose proof (split_on_nonempty Config.dot key).
    destruct (PyText.split_on Config.dot key) as [|k ks]; [done|].
    destruct other as [| | | | | |entries]; try done.
    by destruct (Hother entries).
Qed.

Example config_get_scenario :
  let config :=
    Config.YDict
      (<[ "monitor" :=
            Config.YDict (<[ "interval" := Config.YInt 5 ]>
                            (<[ "region" := Config.YNull ]> ∅)) ]> ∅) in
  Config.get config "monitor.interval" (Config.YInt 3) = Config.YInt 5 /\
  Config.get config "monitor.region" (Config.YInt 3) = Config.YNull /\
  Config.get config "monitor.interval.unit" (Config.YInt 3) = Config.YInt 3 /\
  Config.get config "ocr.lang" (Config.YInt 3) = Config.YInt 3 /\
  Config.get (Config.YList [config]) "monitor.interval" (Config.YInt 3)
    = Config.YInt 3.
Proof. vm_compute. done. Qed.

(** ** Where the keywords come from *)

(** X21. [_init_keyword_filter]: when the database holds keywords, the
    filter is built from them alone and the keywords of the configuration
    file are ignored; when both are empty there is no filter, and then
    a batch stores every message as unmatched, counts no match and
    triggers no notification. *)
Theorem keywords_come_from_database_first `{PyBuiltins} {DB : Type}
    (insert : DB -> MessageRecord -> DB * option Z)
    (config_keywords : list string) (case_sensitive : bool) :
  (forall (k : string) (db_keywords : list string),
      Loading._init_keyword_filter (k :: db_keywords) config_keywords
        case_sensitive
      = Some (MonitorV2.init (k :: db_keywords) case_sensitive)) /\
  Loading._init_keyword_filter [] config_keywords case_sensitive
    = match config_keywords with
      | [] => None
      | _ => Some (MonitorV2.init config_keywords case_sensitive)
      end /\
  (forall (self : @MultiSourceMonitor DB) (now : Z)
          (messages : list ChatMessage),
      keyword_filter self
        = Loading._init_keyword_filter [] [] case_sensitive ->
      submitted (process_batch insert self now messages).2
        = map (fun msg => to_record msg None) messages /\
      matched_messages (process_batch insert self now messages).1
        = matched_messages self /\
      forall n, NotificationTriggered n
                  ∉ (process_batch insert self now messages).2).
Proof.
  split; [done|]. split; [done|].
  intros self now messages Hkf. cbn in Hkf.
  destruct (process_batch_submits insert self now messages) as [Hs _].
  destruct (process_batch_stats insert self now messages) as (_ & Hm & _).
  split; [|split].
  - rewrite Hs, Hkf. done.
  - rewrite Hm, Hkf.
    assert (List.filter (is_hit None) messages = []) as ->; [|cbn; lia].
    clear. induction messages as [|msg rest IH]; [done|].
    cbn [List.filter]. by change (is_hit None msg) with false.
  - intros n Hn.
    apply process_batch_notifications in Hn
      as (_ & msg & row & _ & _ & Hf & _).
    rewrite Hkf in Hf. done.
Qed.

Lemma keywords_come_from_database_first_witness :
  submitted
    (@process_batch _ Sample.insert_message Sample.runtime
       (mkMonitor [] None true 0 0 ∅) 0
       [Sample.said "1" "refund please"]).2
  = map (fun msg => to_record msg None) [Sample.said "1" "refund please"].
Proof.
  apply (proj2 (proj2 (@keywords_come_from_database_first Sample.runtime _
                         Sample.insert_message ["refund"] false))
           (mkMonitor [] None true 0 0 ∅) 0
           [Sample.said "1" "refund please"] eq_refl).
Defined.

Lemma config_get_follows_dotted_key_witness :
  Config.get (Config.YDict (<[ "interval" := Config.YInt 5 ]> ∅)) "interval"
    (Config.YInt 3)
  = default (Config.YInt 3)
      ((<[ "interval" := Config.YInt 5 ]> ∅ : gmap string Config.Yaml)
         !! "interval").
Proof.
  apply (proj1 (proj2 (config_get_follows_dotted_key Config.YNull "" ""
                         (Config.YInt 3)))).
  intros Hsub. apply contains_spec in Hsub. vm_compute in Hsub. discriminate.
Defined.
